(** * Notifications, reminders, friendships and social interactions of app.py

    A shallow embedding of the Flask/SQLAlchemy application in [src/app.py]:
    the database tables the notification core touches, the live-push side
    ([socketio.emit] to per-user rooms), the reminder evaluator
    [check_and_send_notifications], the notification primitive
    [create_notification], and the route handlers that call it.

    Modelling conventions.
    - Integer columns and Python ints are [Z]; the [Float] columns that the
      handlers compare (water amount, sleep duration) are rationals [Q].
    - Every table is a list in insertion order; [Model.query.get(id)] and
      [filter_by(...).first()] are [find] on that list.
    - Primary keys come from one counter [next_id] (fresh for every row).
    - The emoji prefixes of the notification titles are left out of the
      title strings; the rest of each title and message is kept verbatim.
    - A request runs inside one SQLAlchemy session: [db.session.commit()]
      makes the pending rows durable; a commit that raises persists nothing
      of the pending rows, and the handler's [except] returns a 500.
    - [socketio.emit(..., room=f'user_{id}')] appends an [EvEmit] event to
      the effect trace [trace]; [db.session.commit()] of a notification
      appends [EvCommitNotification].  The trace records the order in which
      the effects happen. *)

From Stdlib Require Import ZArith List String Ascii Bool QArith Lia.
From Stdlib Require Import DecimalString.
From Stdlib Require Import Permutation.
Import ListNotations.

Local Open Scope Z_scope.
Local Open Scope string_scope.

Module App.

(** ** Data model (the SQLAlchemy models) *)

Record User := mkUser {
  u_id : Z;
  username : string;
  notifications_enabled : bool;
  water_reminder : bool;
  meal_reminder : bool;
  workout_reminder : bool;
  sleep_reminder : bool;
  fasting_reminder : bool
}.

Record Notification := mkNotification {
  n_id : Z;
  n_user_id : Z;
  n_title : string;
  n_message : string;
  n_type : string;
  n_is_read : bool
}.

Record Post := mkPost {
  p_id : Z;
  p_user_id : Z;
  p_content : string;
  likes_count : Z;
  comments_count : Z
}.

Record PostLike := mkPostLike {
  l_id : Z;
  l_user_id : Z;
  l_post_id : Z
}.

Record Comment := mkComment {
  c_id : Z;
  c_user_id : Z;
  c_post_id : Z;
  c_content : string
}.

Record Friendship := mkFriendship {
  f_id : Z;
  f_user_id : Z;      (* the requester *)
  f_friend_id : Z;    (* the recipient *)
  f_status : string   (* 'pending' or 'accepted' *)
}.

Record Message := mkMessage {
  m_id : Z;
  sender_id : Z;
  receiver_id : Z;
  m_content : string
}.

Record WaterLog := mkWaterLog {
  w_id : Z;
  w_user_id : Z;
  amount : Q;
  w_date : Z          (* the day of [date] *)
}.

Record SleepLog := mkSleepLog {
  s_id : Z;
  s_user_id : Z;
  duration : Q;
  quality : Z
}.

Record FastingSession := mkFastingSession {
  fs_id : Z;
  fs_user_id : Z;
  start_time : Z;     (* seconds *)
  end_time : option Z;
  target_duration : Z;
  completed : bool
}.

(** JSON-like values of push payloads and responses. *)
Inductive value :=
| VStr (s : string)
| VInt (z : Z)
| VBool (b : bool).

(** Socket.IO rooms: [f'user_{id}']. *)
Inductive room := user_room (uid : Z).

(** Observable effects, in the order they happen. *)
Inductive event :=
| EvCommitNotification (n : Notification)
| EvEmit (r : room) (name : string) (payload : list (string * value))
(** [emit(...)] inside an event handler, without a room: sent back to the
    session [sid] that raised the event. *)
| EvReply (sid : Z) (name : string) (payload : list (string * value)).

(** The database, the live sessions joined to rooms, and the effect trace.
    [bad_users]: user ids for which writing a notification row raises a
    store error (a bad record). *)
Record State := mkState {
  users : list User;
  notifications : list Notification;
  posts : list Post;
  post_likes : list PostLike;
  comments : list Comment;
  friendships : list Friendship;
  messages : list Message;
  water_logs : list WaterLog;
  sleep_logs : list SleepLog;
  fasting_sessions : list FastingSession;
  presence : list (Z * Z);   (* (session id, user id) joined to user_<id> *)
  trace : list event;
  next_id : Z;
  bad_users : list Z
}.

(** Functional updates of single fields. *)
Definition set_notifications (s : State) (v : list Notification) : State :=
  mkState s.(users) v s.(posts) s.(post_likes) s.(comments) s.(friendships)
    s.(messages) s.(water_logs) s.(sleep_logs) s.(fasting_sessions)
    s.(presence) s.(trace) s.(next_id) s.(bad_users).
Definition set_posts (s : State) (v : list Post) : State :=
  mkState s.(users) s.(notifications) v s.(post_likes) s.(comments) s.(friendships)
    s.(messages) s.(water_logs) s.(sleep_logs) s.(fasting_sessions)
    s.(presence) s.(trace) s.(next_id) s.(bad_users).
Definition set_post_likes (s : State) (v : list PostLike) : State :=
  mkState s.(users) s.(notifications) s.(posts) v s.(comments) s.(friendships)
    s.(messages) s.(water_logs) s.(sleep_logs) s.(fasting_sessions)
    s.(presence) s.(trace) s.(next_id) s.(bad_users).
Definition set_comments (s : State) (v : list Comment) : State :=
  mkState s.(users) s.(notifications) s.(posts) s.(post_likes) v s.(friendships)
    s.(messages) s.(water_logs) s.(sleep_logs) s.(fasting_sessions)
    s.(presence) s.(trace) s.(next_id) s.(bad_users).
Definition set_friendships (s : State) (v : list Friendship) : State :=
  mkState s.(users) s.(notifications) s.(posts) s.(post_likes) s.(comments) v
    s.(messages) s.(water_logs) s.(sleep_logs) s.(fasting_sessions)
    s.(presence) s.(trace) s.(next_id) s.(bad_users).
Definition set_messages (s : State) (v : list Message) : State :=
  mkState s.(users) s.(notifications) s.(posts) s.(post_likes) s.(comments)
    s.(friendships) v s.(water_logs) s.(sleep_logs) s.(fasting_sessions)
    s.(presence) s.(trace) s.(next_id) s.(bad_users).
Definition set_water_logs (s : State) (v : list WaterLog) : State :=
  mkState s.(users) s.(notifications) s.(posts) s.(post_likes) s.(comments)
    s.(friendships) s.(messages) v s.(sleep_logs) s.(fasting_sessions)
    s.(presence) s.(trace) s.(next_id) s.(bad_users).
Definition set_sleep_logs (s : State) (v : list SleepLog) : State :=
  mkState s.(users) s.(notifications) s.(posts) s.(post_likes) s.(comments)
    s.(friendships) s.(messages) s.(water_logs) v s.(fasting_sessions)
    s.(presence) s.(trace) s.(next_id) s.(bad_users).
Definition set_fasting_sessions (s : State) (v : list FastingSession) : State :=
  mkState s.(users) s.(notifications) s.(posts) s.(post_likes) s.(comments)
    s.(friendships) s.(messages) s.(water_logs) s.(sleep_logs) v
    s.(presence) s.(trace) s.(next_id) s.(bad_users).
Definition set_presence (s : State) (v : list (Z * Z)) : State :=
  mkState s.(users) s.(notifications) s.(posts) s.(post_likes) s.(comments)
    s.(friendships) s.(messages) s.(water_logs) s.(sleep_logs)
    s.(fasting_sessions) v s.(trace) s.(next_id) s.(bad_users).
Definition set_trace (s : State) (v : list event) : State :=
  mkState s.(users) s.(notifications) s.(posts) s.(post_likes) s.(comments)
    s.(friendships) s.(messages) s.(water_logs) s.(sleep_logs)
    s.(fasting_sessions) s.(presence) v s.(next_id) s.(bad_users).
Definition set_next_id (s : State) (v : Z) : State :=
  mkState s.(users) s.(notifications) s.(posts) s.(post_likes) s.(comments)
    s.(friendships) s.(messages) s.(water_logs) s.(sleep_logs)
    s.(fasting_sessions) s.(presence) s.(trace) v s.(bad_users).

(** Allocate a primary key. *)
Definition fresh_id (s : State) : Z * State :=
  (s.(next_id), set_next_id s (s.(next_id) + 1)).

(** [str(n)] / f-string interpolation of an int. *)
Definition str_Z (z : Z) : string := NilZero.string_of_int (Z.to_int z).

(** ** Exceptions

    [Raise e s]: exception [e] escaped; [s] is the state the raising code
    had reached (what earlier commits made durable).  Callers whose pending
    rows were part of the failing commit discard [s]. *)
Inductive res :=
| Ok (s : State)
| Raise (e : string) (s : State).

Definition bind (m : res) (k : State -> res) : res :=
  match m with
  | Ok s => k s
  | Raise e s => Raise e s
  end.

Notation "x <- m ;; k" := (bind m (fun x => k))
  (at level 61, m at next level, right associativity).

Definition res_state (r : res) : State :=
  match r with Ok s => s | Raise _ s => s end.

(** ** [create_notification] (app.py, lines 358-373)

<<
def create_notification(user_id, title, message, type='general'):
    if user_id:
        notification = Notification(user_id=user_id, title=title,
                                    message=message, type=type)
        db.session.add(notification)
        db.session.commit()
        socketio.emit('new_notification', {'title': title,
            'message': message, 'type': type}, room=f'user_{user_id}')
>>
    [is_read] takes its column default [False].  A user id is falsy only
    when it is [0]. *)
Definition notification_payload (title message type : string)
  : list (string * value) :=
  [("title", VStr title); ("message", VStr message); ("type", VStr type)].

Definition create_notification (s : State) (user_id : Z)
    (title message type : string) : res :=
  if Z.eqb user_id 0 then Ok s
  else
    let (nid, s1) := fresh_id s in
    let n := mkNotification nid user_id title message type false in
    if existsb (Z.eqb user_id) s.(bad_users) then
      Raise "store error" s
    else
      let s2 := set_notifications s1 (s1.(notifications) ++ [n]) in
      let s3 := set_trace s2 (s2.(trace) ++ [EvCommitNotification n]) in
      Ok (set_trace s3
            (s3.(trace) ++ [EvEmit (user_room user_id) "new_notification"
                              (notification_payload title message type)])).

(** Live delivery: the sessions joined to room [user_<uid>] receive an
    emit to that room. *)
Definition channels_for (s : State) (uid : Z) : list Z :=
  map fst (filter (fun p => Z.eqb (snd p) uid) s.(presence)).

(** ** The reminder evaluator (app.py, lines 377-410) *)

Definition water_title := "Time to Drink Water!".
Definition breakfast_title := "Breakfast Time!".
Definition lunch_title := "Lunch Time!".
Definition dinner_title := "Dinner Time!".
Definition workout_title := "Workout Time!".
Definition bedtime_title := "Bedtime!".

(** The body of the [for user in users] loop at [current_hour]. *)
Definition remind_user (current_hour : Z) (user : User) (s : State) : res :=
  s1 <- (if water_reminder user && Z.leb 8 current_hour && Z.leb current_hour 20
            && Z.eqb (current_hour mod 2) 0
         then create_notification s user.(u_id) water_title
                "Stay hydrated! Drink a glass of water." "water"
         else Ok s) ;;
  s2 <- (if meal_reminder user then
           if Z.eqb current_hour 8 then
             create_notification s1 user.(u_id) breakfast_title
               "Don't forget to have your breakfast!" "meal"
           else if Z.eqb current_hour 13 then
             create_notification s1 user.(u_id) lunch_title
               "Time for a healthy lunch!" "meal"
           else if Z.eqb current_hour 19 then
             create_notification s1 user.(u_id) dinner_title
               "Don't skip dinner!" "meal"
           else Ok s1
         else Ok s1) ;;
  s3 <- (if workout_reminder user && Z.eqb current_hour 17
         then create_notification s2 user.(u_id) workout_title
                "Time for your daily workout!" "workout"
         else Ok s2) ;;
  (if sleep_reminder user && Z.eqb current_hour 22
   then create_notification s3 user.(u_id) bedtime_title
          "Time to wind down and prepare for sleep." "sleep"
   else Ok s3).

Fixpoint remind_all (current_hour : Z) (us : list User) (s : State) : res :=
  match us with
  | [] => Ok s
  | user :: rest => s' <- remind_user current_hour user s ;; remind_all current_hour rest s'
  end.

(** [users = User.query.filter_by(notifications_enabled=True).all()], then
    the loop; [current_hour = datetime.utcnow().hour] is the argument.  An
    exception of [create_notification] is not caught: it leaves the function
    (and the [schedule] job). *)
Definition check_and_send_notifications (current_hour : Z) (s : State) : res :=
  remind_all current_hour (filter notifications_enabled s.(users)) s.

(** ** HTTP responses: [jsonify(...)] with a status code. *)
Inductive response :=
| Resp (status : Z) (body : list (string * value)).

Definition error_resp (code : Z) (msg : string) : response :=
  Resp code [("success", VBool false); ("message", VStr msg)].

Definition ok_resp (fields : list (string * value)) : response :=
  Resp 200 (("success", VBool true) :: fields).

(** ** GET /api/notifications (lines 1441-1470): the caller's rows, unread
    ones only on request, newest first ([order_by(created_at.desc())], with
    creation order standing for [created_at]), at most [limit] of them. *)
Definition list_notifications (s : State) (current_user_id : Z)
    (unread_only : bool) (limit : nat) : list Notification :=
  firstn limit
    (rev (filter (fun n => Z.eqb n.(n_user_id) current_user_id
                           && (if unread_only then negb n.(n_is_read) else true))
                 s.(notifications))).

(** ** Live sessions (lines 2233-2241).  [handle_connect] runs for session
    [sid] with the logged-in user, if any ([current_user.is_authenticated]):
    it joins [user_<id>] and replies [connected] to that session; an
    anonymous connection does neither.  [handle_disconnect] itself only
    prints; Flask-SocketIO removes the session from every room it joined. *)
Definition handle_connect (s : State) (sid : Z) (current_user : option User) : State :=
  match current_user with
  | Some cu =>
      let s1 := set_presence s (s.(presence) ++ [(sid, cu.(u_id))]) in
      set_trace s1 (s1.(trace) ++ [EvReply sid "connected"
                                     [("message", VStr ("Connected as " ++ cu.(username)))]])
  | None => s
  end.

Definition handle_disconnect (s : State) (sid : Z) : State :=
  set_presence s (filter (fun p => negb (Z.eqb (fst p) sid)) s.(presence)).

(** ** Friendships: POST/DELETE /api/social/friends (lines 1544-1620) *)

Definition find_user_by_username (s : State) (name : string) : option User :=
  find (fun u => String.eqb u.(username) name) s.(users).

Definition find_friendship (s : State) (fid : Z) : option Friendship :=
  find (fun f => Z.eqb f.(f_id) fid) s.(friendships).

(** The symmetric existence check of [action == 'send']. *)
Definition friendship_between (s : State) (a b : Z) : option Friendship :=
  find (fun f => (Z.eqb f.(f_user_id) a && Z.eqb f.(f_friend_id) b)
                 || (Z.eqb f.(f_user_id) b && Z.eqb f.(f_friend_id) a))
       s.(friendships).

(** [action == 'send']: the friendship row is committed before
    [create_notification], so a failing notification keeps it. *)
Definition send_request (s : State) (current_user : User)
    (friend_username : string) : response * State :=
  match find_user_by_username s friend_username with
  | None => (error_resp 404 "User not found", s)
  | Some friend_user =>
      if Z.eqb friend_user.(u_id) current_user.(u_id) then
        (error_resp 400 "Cannot add yourself", s)
      else
        match friendship_between s current_user.(u_id) friend_user.(u_id) with
        | Some _ => (error_resp 400 "Friendship already exists", s)
        | None =>
            let (fid, s1) := fresh_id s in
            let s2 := set_friendships s1
                (s1.(friendships)
                   ++ [mkFriendship fid current_user.(u_id) friend_user.(u_id) "pending"]) in
            match create_notification s2 friend_user.(u_id) "New Friend Request"
                    (current_user.(username) ++ " sent you a friend request!") "social" with
            | Ok s3 => (ok_resp [("message", VStr "Friend request sent")], s3)
            | Raise e s3 => (error_resp 500 e, s3)
            end
        end
  end.

Definition accept_row (fid : Z) (f : Friendship) : Friendship :=
  if Z.eqb f.(f_id) fid
  then mkFriendship f.(f_id) f.(f_user_id) f.(f_friend_id) "accepted"
  else f.

Definition delete_friendship (s : State) (fid : Z) : State :=
  set_friendships s (filter (fun f => negb (Z.eqb f.(f_id) fid)) s.(friendships)).

(** [action in ['accept', 'reject']]; [accept] tells which.  On accept the
    status change is pending in the session and is committed by the commit
    inside [create_notification]; if that commit raises, nothing persists. *)
Definition respond (s : State) (current_user : User) (friendship_id : Z)
    (accept : bool) : response * State :=
  let action := if accept then "accept" else "reject" in
  match find_friendship s friendship_id with
  | None => (error_resp 404 "Friend request not found", s)
  | Some f =>
      if negb (Z.eqb f.(f_friend_id) current_user.(u_id)) then
        (error_resp 404 "Friend request not found", s)
      else if accept then
        let s1 := set_friendships s (map (accept_row f.(f_id)) s.(friendships)) in
        match create_notification s1 f.(f_user_id) "Friend Request Accepted"
                (current_user.(username) ++ " accepted your friend request!") "social" with
        | Ok s2 => (ok_resp [("message", VStr ("Friend request " ++ action ++ "ed"))], s2)
        | Raise e _ => (error_resp 500 e, s)
        end
      else
        (ok_resp [("message", VStr ("Friend request " ++ action ++ "ed"))],
         delete_friendship s f.(f_id))
  end.

(** The POST dispatcher on [data['action']]. *)
Definition friends_post (s : State) (current_user : User) (action : string)
    (friend_username : string) (friendship_id : Z) : response * State :=
  if String.eqb action "send" then send_request s current_user friend_username
  else if String.eqb action "accept" then respond s current_user friendship_id true
  else if String.eqb action "reject" then respond s current_user friendship_id false
  else (error_resp 400 "Invalid action", s).

(** DELETE: either party removes the row, whatever its status. *)
Definition remove_friend (s : State) (current_user : User) (friendship_id : Z)
    : response * State :=
  match find_friendship s friendship_id with
  | None => (error_resp 404 "Friendship not found", s)
  | Some f =>
      if negb (Z.eqb f.(f_user_id) current_user.(u_id))
         && negb (Z.eqb f.(f_friend_id) current_user.(u_id)) then
        (error_resp 404 "Friendship not found", s)
      else (ok_resp [], delete_friendship s f.(f_id))
  end.

(** ** Posts, likes and comments (lines 1622-1830) *)

Definition find_post (s : State) (pid : Z) : option Post :=
  find (fun p => Z.eqb p.(p_id) pid) s.(posts).

Definition post_upd (pid : Z) (g : Post -> Post) (p : Post) : Post :=
  if Z.eqb p.(p_id) pid then g p else p.

(** [post.<field> = ...] on the row with id [pid]. *)
Definition update_post (s : State) (pid : Z) (g : Post -> Post) : State :=
  set_posts s (map (post_upd pid g) s.(posts)).

Definition add_likes (d : Z) (p : Post) : Post :=
  mkPost p.(p_id) p.(p_user_id) p.(p_content) (p.(likes_count) + d) p.(comments_count).

Definition add_comments (d : Z) (p : Post) : Post :=
  mkPost p.(p_id) p.(p_user_id) p.(p_content) p.(likes_count) (p.(comments_count) + d).

(** POST /api/social/posts: counters start at their column default 0. *)
Definition create_post (s : State) (current_user : User) (content : string)
    : response * State :=
  let (pid, s1) := fresh_id s in
  (ok_resp [("post", VInt pid)],
   set_posts s1 (s1.(posts) ++ [mkPost pid current_user.(u_id) content 0 0])).

Definition find_like (s : State) (pid uid : Z) : option PostLike :=
  find (fun l => Z.eqb l.(l_post_id) pid && Z.eqb l.(l_user_id) uid) s.(post_likes).

Definition delete_like (s : State) (lid : Z) : State :=
  set_post_likes s (filter (fun l => negb (Z.eqb l.(l_id) lid)) s.(post_likes)).

Definition like_response (liked : bool) (s : State) (pid : Z) : response :=
  ok_resp [("liked", VBool liked);
           ("likes_count", VInt (match find_post s pid with
                                 | Some p => p.(likes_count) | None => 0 end))].

(** POST /api/social/posts/<id>/like.  The new like and the counter are
    pending while [create_notification] commits, so they are durable exactly
    when that commit succeeds. *)
Definition like_post (s : State) (current_user : User) (post_id : Z)
    : response * State :=
  match find_post s post_id with
  | None => (error_resp 404 "Post not found", s)
  | Some post =>
      match find_like s post_id current_user.(u_id) with
      | Some existing_like =>
          let s1 := update_post (delete_like s existing_like.(l_id)) post_id (add_likes (-1)) in
          (like_response false s1 post_id, s1)
      | None =>
          let (lid, s1) := fresh_id s in
          let s2 := set_post_likes s1
                      (s1.(post_likes) ++ [mkPostLike lid current_user.(u_id) post_id]) in
          let s3 := update_post s2 post_id (add_likes 1) in
          if negb (Z.eqb post.(p_user_id) current_user.(u_id)) then
            match create_notification s3 post.(p_user_id) "New Like"
                    (current_user.(username) ++ " liked your post!") "social" with
            | Ok s4 => (like_response true s4 post_id, s4)
            | Raise e _ => (error_resp 500 e, s)
            end
          else (like_response true s3 post_id, s3)
      end
  end.

(** POST /api/social/posts/<id>/comments: the comment and the counter are
    committed before the owner is notified. *)
Definition add_comment (s : State) (current_user : User) (post_id : Z)
    (content : string) : response * State :=
  match find_post s post_id with
  | None => (error_resp 404 "Post not found", s)
  | Some post =>
      let (cid, s1) := fresh_id s in
      let s2 := set_comments s1
                  (s1.(comments) ++ [mkComment cid current_user.(u_id) post_id content]) in
      let s3 := update_post s2 post_id (add_comments 1) in
      if negb (Z.eqb post.(p_user_id) current_user.(u_id)) then
        match create_notification s3 post.(p_user_id) "New Comment"
                (current_user.(username) ++ " commented on your post!") "social" with
        | Ok s4 => (ok_resp [("comment", VInt cid)], s4)
        | Raise e s4 => (error_resp 500 e, s4)
        end
      else (ok_resp [("comment", VInt cid)], s3)
  end.

(** ** Socket event [send_message] (lines 2243-2270): the message row is
    committed, [new_message] is emitted to the receiver's room (its
    timestamp field left out), then the receiver is notified; an exception
    is only logged. *)
Definition handle_send_message (s : State) (current_user : User)
    (receiver_id : Z) (content : string) : State :=
  let (mid, s1) := fresh_id s in
  let s2 := set_messages s1
              (s1.(messages) ++ [mkMessage mid current_user.(u_id) receiver_id content]) in
  let s3 := set_trace s2
      (s2.(trace) ++ [EvEmit (user_room receiver_id) "new_message"
                        [("sender_id", VInt current_user.(u_id));
                         ("sender_username", VStr current_user.(username));
                         ("content", VStr content)]]) in
  res_state (create_notification s3 receiver_id "New Message"
               (current_user.(username) ++ " sent you a message") "social").

(** ** POST /api/hydration (lines 1147-1173); [today] is
    [datetime.utcnow().date()], the new log is dated today. *)
Definition sumQ (xs : list Q) : Q := fold_left Qplus xs 0%Q.

(** [sum(log.amount for log in today_logs)] over the user's logs dated [today]. *)
Definition water_total (ls : list WaterLog) (uid today : Z) : Q :=
  sumQ (map amount (filter (fun l => Z.eqb l.(w_user_id) uid && Z.eqb l.(w_date) today) ls)).

Definition log_water (s : State) (current_user : User) (amt : Q) (today : Z)
    : response * State :=
  let (wid, s1) := fresh_id s in
  let s2 := set_water_logs s1
              (s1.(water_logs) ++ [mkWaterLog wid current_user.(u_id) amt today]) in
  let today_total := water_total s2.(water_logs) current_user.(u_id) today in
  if Qle_bool 2500 today_total then
    match create_notification s2 current_user.(u_id) "Water Goal Achieved!"
            "You've reached your daily water goal!" "water" with
    | Ok s3 => (ok_resp [("log", VInt wid)], s3)
    | Raise e s3 => (error_resp 500 e, s3)
    end
  else (ok_resp [("log", VInt wid)], s2).

(** ** POST /api/sleep (lines 1207-1234) *)
Definition log_sleep (s : State) (current_user : User) (dur : Q) (qual : Z)
    : response * State :=
  let (sid, s1) := fresh_id s in
  let s2 := set_sleep_logs s1
              (s1.(sleep_logs) ++ [mkSleepLog sid current_user.(u_id) dur qual]) in
  let notified :=
    if negb (Qle_bool 6 dur) then
      create_notification s2 current_user.(u_id) "Sleep Alert"
        "You got less than 6 hours of sleep. Try to get more rest!" "sleep"
    else if Z.ltb qual 5 then
      create_notification s2 current_user.(u_id) "Improve Sleep Quality"
        "Your sleep quality was low. Consider relaxation techniques." "sleep"
    else Ok s2 in
  match notified with
  | Ok s3 => (ok_resp [("log", VInt sid)], s3)
  | Raise e s3 => (error_resp 500 e, s3)
  end.

(** ** POST and PUT /api/fasting (lines 1270-1335); times in seconds. *)
Definition start_fasting (s : State) (current_user : User) (target : Z) (now : Z)
    : response * State :=
  match find (fun f => Z.eqb f.(fs_user_id) current_user.(u_id) && negb f.(completed))
             s.(fasting_sessions) with
  | Some _ => (error_resp 400 "You already have an active fasting session", s)
  | None =>
      let (fid, s1) := fresh_id s in
      let s2 := set_fasting_sessions s1
          (s1.(fasting_sessions)
             ++ [mkFastingSession fid current_user.(u_id) now None target false]) in
      match create_notification s2 current_user.(u_id) "Fasting Started"
              ("Your " ++ str_Z target ++ "-hour fast has started!") "fasting" with
      | Ok s3 => (ok_resp [("session", VInt fid)], s3)
      | Raise e s3 => (error_resp 500 e, s3)
      end
  end.

(** [round(elapsed, 1)] of the elapsed hours, in tenths, rounded half up;
    printed as [str] prints that float. *)
Definition elapsed_tenths (secs : Z) : Z := (10 * secs + 1800) / 3600.

Definition fmt_tenths (t : Z) : string := str_Z (t / 10) ++ "." ++ str_Z (t mod 10).

Definition complete_row (fid now : Z) (f : FastingSession) : FastingSession :=
  if Z.eqb f.(fs_id) fid
  then mkFastingSession f.(fs_id) f.(fs_user_id) f.(start_time) (Some now)
         f.(target_duration) true
  else f.

Definition end_fasting (s : State) (current_user : User) (session_id : Z) (now : Z)
    : response * State :=
  match find (fun f => Z.eqb f.(fs_id) session_id) s.(fasting_sessions) with
  | None => (error_resp 404 "Session not found", s)
  | Some f =>
      if negb (Z.eqb f.(fs_user_id) current_user.(u_id)) then
        (error_resp 404 "Session not found", s)
      else
        let s1 := set_fasting_sessions s (map (complete_row f.(fs_id) now) s.(fasting_sessions)) in
        let t := elapsed_tenths (now - f.(start_time)) in
        match create_notification s1 current_user.(u_id) "Fasting Completed"
                ("You completed a " ++ fmt_tenths t ++ "-hour fast!") "fasting" with
        | Ok s2 => (ok_resp [("elapsed_tenths", VInt t)], s2)
        | Raise e s2 => (error_resp 500 e, s2)
        end
  end.

(** A notification row of type [ty] for [uid] was added to the table and
    then pushed to the room [user_<uid>] (after whatever the request did
    before). *)
Definition notified_row (s s' : State) (uid : Z) (ty : string) : Prop :=
  exists n mid,
    notifications s' = (notifications s ++ [n])%list
    /\ n_user_id n = uid /\ n_type n = ty /\ n_is_read n = false
    /\ trace s' = (trace s ++ mid
                   ++ [EvCommitNotification n;
                       EvEmit (user_room uid) "new_notification"
                         (notification_payload (n_title n) (n_message n) ty)])%list.

(** ** Sample data used by the concrete runs below *)

Definition demo_user (uid : Z) (name : string) (enabled : bool) : User :=
  mkUser uid name enabled true true true true true.

Definition empty_state (us : list User) (bad : list Z) : State :=
  mkState us [] [] [] [] [] [] [] [] [] [] [] 1 bad.

(** Breakfast reminders of user [uid] among the rows. *)
Definition count_breakfast (uid : Z) (ns : list Notification) : nat :=
  List.length (filter (fun n => Z.eqb n.(n_user_id) uid
                           && String.eqb n.(n_title) breakfast_title
                           && String.eqb n.(n_type) "meal") ns).

(** The rows of user [uid]. *)
Definition rows_of (uid : Z) (ns : list Notification) : list Notification :=
  filter (fun n => Z.eqb n.(n_user_id) uid) ns.

(** The two-run scenario of the spec: user 1 with every toggle on, hour 8. *)
Definition two_runs_at_8 : res :=
  s1 <- check_and_send_notifications 8 (empty_state [demo_user 1 "alice" true] []) ;;
  check_and_send_notifications 8 s1.

Definition user_a : User := demo_user 1 "alice" false.
Definition user_b : User := demo_user 2 "bob" true.

(** A run at hour 8 over two enabled users where writing user 1's
    notification raises a store error. *)
Definition failing_state : State :=
  empty_state [demo_user 1 "alice" true; demo_user 2 "bob" true] [1].

Definition failing_run : res := check_and_send_notifications 8 failing_state.

(** Two registered users. *)
Definition alice : User := demo_user 1 "alice" true.
Definition bob : User := demo_user 2 "bob" true.

(** Alice's request to Bob, already accepted. *)
Definition accepted_state : State :=
  mkState [alice; bob] [] [] [] [] [mkFriendship 1 1 2 "accepted"] [] [] [] [] [] [] 2 [].

(** ** Counters, liked state, and the reachable states *)

Definition like_rows (ls : list PostLike) (pid : Z) : nat :=
  List.length (filter (fun l => Z.eqb l.(l_post_id) pid) ls).

Definition comment_rows (cs : list Comment) (pid : Z) : nat :=
  List.length (filter (fun c => Z.eqb c.(c_post_id) pid) cs).

(** [likes_count] and [comments_count] of every post equal its live rows. *)
Definition counters_ok (ps : list Post) (ls : list PostLike) (cs : list Comment) : Prop :=
  forall p, In p ps ->
    p.(likes_count) = Z.of_nat (like_rows ls p.(p_id))
    /\ p.(comments_count) = Z.of_nat (comment_rows cs p.(p_id)).

(** The ['liked'] field of GET /api/social/posts. *)
Definition liked (s : State) (pid uid : Z) : bool :=
  match find_like s pid uid with Some _ => true | None => false end.

(** Every request and event the application handles, run one at a time. *)
Inductive step : State -> State -> Prop :=
| st_create_post s cu c : step s (snd (create_post s cu c))
| st_like s cu pid : step s (snd (like_post s cu pid))
| st_comment s cu pid c : step s (snd (add_comment s cu pid c))
| st_friend_post s cu a n fid : step s (snd (friends_post s cu a n fid))
| st_friend_remove s cu fid : step s (snd (remove_friend s cu fid))
| st_message s cu rid c : step s (handle_send_message s cu rid c)
| st_water s cu a d : step s (snd (log_water s cu a d))
| st_sleep s cu d q : step s (snd (log_sleep s cu d q))
| st_fast_start s cu tg now : step s (snd (start_fasting s cu tg now))
| st_fast_end s cu sid now : step s (snd (end_fasting s cu sid now))
| st_tick s h : step s (res_state (check_and_send_notifications h s))
| st_connect s sid cu : step s (handle_connect s sid cu)
| st_disconnect s sid : step s (handle_disconnect s sid).

(** From an empty database with any registered users and any failing
    notification writes. *)
Inductive reachable : State -> Prop :=
| reach_init us bad : reachable (empty_state us bad)
| reach_step s s' : reachable s -> step s s' -> reachable s'.

(** ** The social invariant

    Ids below the counter, like ids distinct, at most one like per user and
    post, and the counters equal to the rows. *)
Definition social_inv (ps : list Post) (ls : list PostLike) (cs : list Comment)
    (nid : Z) : Prop :=
  (forall p, In p ps -> p_id p < nid)
  /\ (forall l, In l ls -> l_id l < nid /\ l_post_id l < nid)
  /\ (forall c, In c cs -> c_post_id c < nid)
  /\ NoDup (map l_id ls)
  /\ NoDup (map (fun l => (l_user_id l, l_post_id l)) ls)
  /\ counters_ok ps ls cs.

Definition Inv (s : State) : Prop :=
  social_inv (posts s) (post_likes s) (comments s) (next_id s).

(** What the requests that do not touch posts leave alone. *)
Definition social_frame (s s' : State) : Prop :=
  posts s' = posts s /\ post_likes s' = post_likes s /\ comments s' = comments s
  /\ next_id s <= next_id s'.

(** A post by Alice (id 1) liked by Bob. *)
Definition post_state : State := snd (create_post (empty_state [alice; bob] []) alice "hi").
Definition liked_state : State := snd (like_post post_state bob 1).

(** Alice with her master flag off and Bob; a post by Alice, a friend
    request from Alice to Bob, and a fast started by Alice. *)
Definition off_state : State := empty_state [user_a; bob] [].
Definition off_post_state : State := snd (create_post off_state user_a "hi").
Definition off_request_state : State := snd (friends_post off_state user_a "send" "bob" 0).
Definition off_fast_state : State := snd (start_fasting off_state user_a 16 0).

(** ** PUT /api/notifications (lines 1476-1497).  [notification_id] is
    [data.get('id')], [0] standing for a missing (falsy) id: no row has
    id [0].  [mark_all] is [data.get('mark_all', False)]. *)
Definition mark_read (n : Notification) : Notification :=
  mkNotification n.(n_id) n.(n_user_id) n.(n_title) n.(n_message) n.(n_type) true.

Definition update_notifications (s : State) (current_user : User)
    (notification_id : Z) (mark_all : bool) : response * State :=
  if mark_all then
    (ok_resp [],
     set_notifications s
       (map (fun n => if Z.eqb n.(n_user_id) current_user.(u_id) && negb n.(n_is_read)
                      then mark_read n else n) s.(notifications)))
  else if negb (Z.eqb notification_id 0) then
    match find (fun n => Z.eqb n.(n_id) notification_id) s.(notifications) with
    | Some notification =>
        if Z.eqb notification.(n_user_id) current_user.(u_id) then
          (ok_resp [],
           set_notifications s
             (map (fun n => if Z.eqb n.(n_id) notification.(n_id) then mark_read n else n)
                  s.(notifications)))
        else (ok_resp [], s)
    | None => (ok_resp [], s)
    end
  else (ok_resp [], s).

(** The ['unread_count'] field of GET /api/notifications. *)
Definition unread_count (s : State) (current_user_id : Z) : nat :=
  List.length (filter (fun n => Z.eqb n.(n_user_id) current_user_id && negb n.(n_is_read))
                      s.(notifications)).

(** ** GET /api/social/friends (lines 1505-1539).  [User.query.get] of a
    missing user gives [None], whose [.id] raises: the handler answers 500;
    [None] below stands for that answer.  The [profile_picture], [bio] and
    [created_at] fields are not modelled. *)
Record FriendEntry := mkFriendEntry {
  fe_id : Z;
  fe_username : string;
  fe_friendship_id : Z;
  fe_status : string;
  fe_is_requester : bool
}.

Definition find_user (s : State) (uid : Z) : option User :=
  find (fun u => Z.eqb u.(u_id) uid) s.(users).

Fixpoint friend_entries (s : State) (current_user_id : Z) (fs : list Friendship)
    : option (list FriendEntry) :=
  match fs with
  | [] => Some []
  | friendship :: rest =>
      let '(other, is_requester) :=
        if Z.eqb friendship.(f_user_id) current_user_id
        then (friendship.(f_friend_id), true)
        else (friendship.(f_user_id), false) in
      match find_user s other with
      | None => None
      | Some friend_user =>
          match friend_entries s current_user_id rest with
          | None => None
          | Some es =>
              Some (mkFriendEntry friend_user.(u_id) friend_user.(username)
                      friendship.(f_id) friendship.(f_status) is_requester :: es)
          end
      end
  end.

(** [status] is [request.args.get('status', 'accepted')]. *)
Definition friends_get (s : State) (current_user : User) (status : string)
    : option (list FriendEntry) :=
  friend_entries s current_user.(u_id)
    (filter (fun f => (Z.eqb f.(f_user_id) current_user.(u_id)
                       || Z.eqb f.(f_friend_id) current_user.(u_id))
                      && String.eqb f.(f_status) status)
            s.(friendships)).

(** ** GET /api/social/posts (lines 1626-1684).  [user_id] is the query
    argument (absent or empty: [None]); [limit] and [offset] are the
    non-negative integers of the query; [.limit(limit).offset(offset)]
    skips [offset] rows and returns the next [limit]; creation order stands
    for [created_at]. *)
Definition feed_friend_ids (s : State) (uid : Z) : list Z :=
  (map (fun f => if Z.eqb f.(f_user_id) uid then f.(f_friend_id) else f.(f_user_id))
       (filter (fun f => (Z.eqb f.(f_user_id) uid || Z.eqb f.(f_friend_id) uid)
                         && String.eqb f.(f_status) "accepted")
               s.(friendships))
   ++ [uid])%list.

Definition posts_query (s : State) (current_user : User) (user_id : option Z)
    (limit offset : nat) : list Post :=
  let ps := match user_id with
            | Some v => filter (fun p => Z.eqb p.(p_user_id) v) s.(posts)
            | None => filter (fun p => existsb (Z.eqb p.(p_user_id))
                                         (feed_friend_ids s current_user.(u_id)))
                             s.(posts)
            end in
  firstn limit (skipn offset (rev ps)).

Record PostEntry := mkPostEntry {
  pe_id : Z;
  pe_content : string;
  pe_likes_count : Z;
  pe_comments_count : Z;
  pe_user_id : Z;
  pe_username : string;
  pe_liked : bool
}.

Fixpoint post_entries (s : State) (current_user_id : Z) (ps : list Post)
    : option (list PostEntry) :=
  match ps with
  | [] => Some []
  | post :: rest =>
      match find_user s post.(p_user_id) with
      | None => None
      | Some user =>
          match post_entries s current_user_id rest with
          | None => None
          | Some es =>
              Some (mkPostEntry post.(p_id) post.(p_content) post.(likes_count)
                      post.(comments_count) user.(u_id) user.(username)
                      (liked s post.(p_id) current_user_id) :: es)
          end
      end
  end.

(** The ['posts'] and ['has_more'] fields; [None] is the 500 answer. *)
Definition posts_get (s : State) (current_user : User) (user_id : option Z)
    (limit offset : nat) : option (list PostEntry * bool) :=
  let ps := posts_query s current_user user_id limit offset in
  match post_entries s current_user.(u_id) ps with
  | Some es => Some (es, Nat.eqb (List.length ps) limit)
  | None => None
  end.

(** ** GET /api/social/posts/<id>/comments (lines 1755-1779): the post's
    comments in creation order. *)
Definition comments_of (s : State) (post_id : Z) : list Comment :=
  filter (fun c => Z.eqb c.(c_post_id) post_id) s.(comments).

Record CommentEntry := mkCommentEntry {
  ce_id : Z;
  ce_content : string;
  ce_user_id : Z;
  ce_username : string
}.

Fixpoint comment_entries (s : State) (cs : list Comment) : option (list CommentEntry) :=
  match cs with
  | [] => Some []
  | comment :: rest =>
      match find_user s comment.(c_user_id) with
      | None => None
      | Some user =>
          match comment_entries s rest with
          | None => None
          | Some es =>
              Some (mkCommentEntry comment.(c_id) comment.(c_content) user.(u_id)
                      user.(username) :: es)
          end
      end
  end.

Definition comments_get (s : State) (post_id : Z) : option (list CommentEntry) :=
  comment_entries s (comments_of s post_id).

(** ** GET /api/fasting (lines 1243-1265): the session it reports, the
    same query as the guard of [start_fasting]. *)
Definition active_session (s : State) (uid : Z) : option FastingSession :=
  find (fun f => Z.eqb f.(fs_user_id) uid && negb f.(completed)) s.(fasting_sessions).

(** ** GET /api/hydration (lines 1122-1143): the ['total'] of a day. *)
Definition hydration_total (s : State) (current_user : User) (date : Z) : Q :=
  water_total s.(water_logs) current_user.(u_id) date.

(** ** [allowed_file] (lines 318-320), on ASCII file names: [str.lower]
    maps exactly the letters A-Z to a-z there. *)
Definition lower_char (c : ascii) : ascii :=
  let n := nat_of_ascii c in
  if Nat.leb 65 n && Nat.leb n 90 then ascii_of_nat (n + 32) else c.

Fixpoint lower (s : string) : string :=
  match s with
  | EmptyString => EmptyString
  | String c r => String (lower_char c) (lower r)
  end.

(** ['.' in s] *)
Fixpoint has_dot (s : string) : bool :=
  match s with
  | EmptyString => false
  | String c r => Ascii.eqb c "."%char || has_dot r
  end.

(** [s.rsplit('.', 1)[1]]: what follows the last dot, if there is one. *)
Fixpoint after_last_dot (s : string) : option string :=
  match s with
  | EmptyString => None
  | String c r =>
      match after_last_dot r with
      | Some e => Some e
      | None => if Ascii.eqb c "."%char then Some r else None
      end
  end.

Definition allowed_extensions : list string := ["png"; "jpg"; "jpeg"; "gif"; "webp"].

Definition allowed_file (filename : string) : bool :=
  has_dot filename
  && match after_last_dot filename with
     | Some ext => existsb (String.eqb (lower ext)) allowed_extensions
     | None => false
     end.

(** ** Grocery items (model [GroceryItem], lines 213-220) and their routes.
    The grocery table sits beside the application state; its ids come from
    the same counter. *)
Record GroceryItem := mkGroceryItem {
  g_id : Z;
  g_user_id : Z;
  g_name : string;
  g_quantity : string;
  g_category : string;
  g_purchased : bool
}.

Record GState := mkGState {
  app : State;
  grocery_items : list GroceryItem
}.

(** [common_items] of [generate_grocery_list]: (name, quantity, category). *)
Definition common_items : list (string * string * string) :=
  [("Chicken Breast", "500g", "Protein"); ("Salmon", "300g", "Protein");
   ("Greek Yogurt", "1kg", "Dairy"); ("Eggs", "12 pieces", "Protein");
   ("Oats", "500g", "Grains"); ("Quinoa", "250g", "Grains");
   ("Brown Rice", "1kg", "Grains"); ("Mixed Vegetables", "1kg", "Vegetables");
   ("Spinach", "200g", "Vegetables"); ("Avocado", "3 pieces", "Fruits");
   ("Bananas", "6 pieces", "Fruits"); ("Mixed Berries", "300g", "Fruits");
   ("Almonds", "200g", "Nuts"); ("Olive Oil", "500ml", "Condiments");
   ("Protein Powder", "500g", "Supplements")].

(** [for item_data in common_items: db.session.add(GroceryItem(...))] *)
Fixpoint add_items (user_id : Z) (items : list (string * string * string)) (gs : GState)
    : GState :=
  match items with
  | [] => gs
  | (name, quantity, category) :: rest =>
      let (gid, s1) := fresh_id gs.(app) in
      add_items user_id rest
        (mkGState s1 (gs.(grocery_items)
                        ++ [mkGroceryItem gid user_id name quantity category false]))
  end.

(** [generate_grocery_list] (lines 970-1014), called by POST
    /api/meal-plans.  The unpurchased items of the user are deleted, the 15
    common items added and committed, then the user is notified; an
    exception of [create_notification] is caught and gives [False], after
    the commit of the items. *)
Definition generate_grocery_list (gs : GState) (user_id : Z) (week_start_date : Z)
    : bool * GState :=
  let kept := filter (fun i => negb (Z.eqb i.(g_user_id) user_id && negb i.(g_purchased)))
                     gs.(grocery_items) in
  let gs2 := add_items user_id common_items (mkGState gs.(app) kept) in
  match create_notification gs2.(app) user_id "Grocery List Generated"
          "Your grocery list has been created from your meal plan!" "general" with
  | Ok s3 => (true, mkGState s3 gs2.(grocery_items))
  | Raise _ s3 => (false, mkGState s3 gs2.(grocery_items))
  end.

(** GET /api/grocery (lines 1342-1370): the caller's items with the
    requested [purchased] flag, newest first; ['total'] is their number. *)
Definition grocery_get (gs : GState) (current_user : User) (purchased : bool)
    : list GroceryItem :=
  rev (filter (fun i => Z.eqb i.(g_user_id) current_user.(u_id)
                        && Bool.eqb i.(g_purchased) purchased) gs.(grocery_items)).

Definition find_item (gs : GState) (item_id : Z) : option GroceryItem :=
  find (fun i => Z.eqb i.(g_id) item_id) gs.(grocery_items).

(** PUT /api/grocery (lines 1394-1420): [purchased] is [data.get('purchased')]
    ([None] when absent); [name], [quantity], [category] are present when the
    key is in [data]. *)
Definition grocery_put (gs : GState) (current_user : User) (item_id : Z)
    (purchased : option bool) (name quantity category : option string)
    : response * GState :=
  match find_item gs item_id with
  | None => (error_resp 404 "Item not found", gs)
  | Some item =>
      if negb (Z.eqb item.(g_user_id) current_user.(u_id)) then
        (error_resp 404 "Item not found", gs)
      else
        let upd (i : GroceryItem) :=
          if Z.eqb i.(g_id) item.(g_id) then
            mkGroceryItem i.(g_id) i.(g_user_id)
              (match name with Some v => v | None => i.(g_name) end)
              (match quantity with Some v => v | None => i.(g_quantity) end)
              (match category with Some v => v | None => i.(g_category) end)
              (match purchased with Some b => b | None => i.(g_purchased) end)
          else i in
        (ok_resp [], mkGState gs.(app) (map upd gs.(grocery_items)))
  end.

(** DELETE /api/grocery (lines 1422-1436). *)
Definition grocery_delete (gs : GState) (current_user : User) (item_id : Z)
    : response * GState :=
  match find_item gs item_id with
  | None => (error_resp 404 "Item not found", gs)
  | Some item =>
      if negb (Z.eqb item.(g_user_id) current_user.(u_id)) then
        (error_resp 404 "Item not found", gs)
      else
        (ok_resp [],
         mkGState gs.(app)
           (filter (fun i => negb (Z.eqb i.(g_id) item.(g_id))) gs.(grocery_items)))
  end.

(** What [create_notification] never touches: every table but the
    notifications, whose old rows stay as they are (new ones are appended). *)
Definition cn_frame (s s' : State) : Prop :=
  users s' = users s /\ posts s' = posts s /\ post_likes s' = post_likes s
  /\ comments s' = comments s /\ friendships s' = friendships s
  /\ messages s' = messages s /\ water_logs s' = water_logs s
  /\ sleep_logs s' = sleep_logs s /\ fasting_sessions s' = fasting_sessions s
  /\ presence s' = presence s /\ bad_users s' = bad_users s
  /\ exists ns, notifications s' = (notifications s ++ ns)%list.

(** The caller's active fasting sessions. *)
Definition active_rows (s : State) (uid : Z) : list FastingSession :=
  filter (fun f => Z.eqb f.(fs_user_id) uid && negb f.(completed)) s.(fasting_sessions).

(** [author] is the viewer or an accepted friend of the viewer. *)
Definition feed_author (s : State) (viewer author : Z) : Prop :=
  author = viewer
  \/ exists f, In f s.(friendships) /\ f.(f_status) = "accepted"
       /\ ((f.(f_user_id) = viewer /\ f.(f_friend_id) = author)
           \/ (f.(f_friend_id) = viewer /\ f.(f_user_id) = author)).

(** Two grocery items of two users, used by the concrete runs. *)
Definition sample_groceries : GState :=
  mkGState off_state
    [mkGroceryItem 1 1 "Oats" "500g" "Grains" false;
     mkGroceryItem 2 2 "Eggs" "12 pieces" "Protein" false].

(** ** Requests served concurrently

    The server runs every request in a thread of its own
    ([async_mode='threading'], line 53) with its own database session: a
    handler loads its rows, then writes and commits.  [post.likes_count += 1]
    and [post.comments_count += 1] write the value the request loaded plus
    one ([UPDATE posts SET likes_count=?]), not an increment of the stored
    value; nothing stops two requests from both seeing no like or no active
    fast.  A DELETE that matches no row only warns. *)
Definition set_likes_count (v : Z) (p : Post) : Post :=
  mkPost p.(p_id) p.(p_user_id) p.(p_content) v p.(comments_count).

Definition set_comments_count (v : Z) (p : Post) : Post :=
  mkPost p.(p_id) p.(p_user_id) p.(p_content) p.(likes_count) v.

(** The writes of [like_post] (lines 1713-1750), given the post and the
    like the request loaded, on the store [s] current at commit time. *)
Definition like_commit (s : State) (current_user : User) (post_id : Z)
    (loaded_post : option Post) (existing_like : option PostLike)
    : response * State :=
  match loaded_post with
  | None => (error_resp 404 "Post not found", s)
  | Some post =>
      match existing_like with
      | Some l =>
          let s1 := update_post (delete_like s l.(l_id)) post_id
                      (set_likes_count (post.(likes_count) - 1)) in
          (like_response false s1 post_id, s1)
      | None =>
          let (lid, s1) := fresh_id s in
          let s2 := set_post_likes s1
                      (s1.(post_likes) ++ [mkPostLike lid current_user.(u_id) post_id]) in
          let s3 := update_post s2 post_id (set_likes_count (post.(likes_count) + 1)) in
          if negb (Z.eqb post.(p_user_id) current_user.(u_id)) then
            match create_notification s3 post.(p_user_id) "New Like"
                    (current_user.(username) ++ " liked your post!") "social" with
            | Ok s4 => (like_response true s4 post_id, s4)
            | Raise e _ => (error_resp 500 e, s)
            end
          else (like_response true s3 post_id, s3)
      end
  end.

(** The writes of the comment POST (lines 1782-1821), given the loaded post. *)
Definition comment_commit (s : State) (current_user : User) (post_id : Z)
    (content : string) (loaded_post : option Post) : response * State :=
  match loaded_post with
  | None => (error_resp 404 "Post not found", s)
  | Some post =>
      let (cid, s1) := fresh_id s in
      let s2 := set_comments s1
                  (s1.(comments) ++ [mkComment cid current_user.(u_id) post_id content]) in
      let s3 := update_post s2 post_id (set_comments_count (post.(comments_count) + 1)) in
      if negb (Z.eqb post.(p_user_id) current_user.(u_id)) then
        match create_notification s3 post.(p_user_id) "New Comment"
                (current_user.(username) ++ " commented on your post!") "social" with
        | Ok s4 => (ok_resp [("comment", VInt cid)], s4)
        | Raise e s4 => (error_resp 500 e, s4)
        end
      else (ok_resp [("comment", VInt cid)], s3)
  end.

(** The writes of the fasting POST (lines 1270-1308), given the active
    session the request loaded. *)
Definition fast_commit (s : State) (current_user : User) (target : Z) (now : Z)
    (existing : option FastingSession) : response * State :=
  match existing with
  | Some _ => (error_resp 400 "You already have an active fasting session", s)
  | None =>
      let (fid, s1) := fresh_id s in
      let s2 := set_fasting_sessions s1
          (s1.(fasting_sessions)
             ++ [mkFastingSession fid current_user.(u_id) now None target false]) in
      match create_notification s2 current_user.(u_id) "Fasting Started"
              ("Your " ++ str_Z target ++ "-hour fast has started!") "fasting" with
      | Ok s3 => (ok_resp [("session", VInt fid)], s3)
      | Raise e s3 => (error_resp 500 e, s3)
      end
  end.

(** The requests whose reads and writes are split here. *)
Inductive request :=
| ReqLike (current_user : User) (post_id : Z)
| ReqComment (current_user : User) (post_id : Z) (content : string)
| ReqStartFast (current_user : User) (target now : Z).

(** A request's reads on [s]; the result commits on a later store. *)
Definition request_reads (s : State) (r : request) : State -> response * State :=
  match r with
  | ReqLike cu pid => fun s' =>
      like_commit s' cu pid (find_post s pid) (find_like s pid cu.(u_id))
  | ReqComment cu pid c => fun s' => comment_commit s' cu pid c (find_post s pid)
  | ReqStartFast cu tg now => fun s' => fast_commit s' cu tg now (active_session s cu.(u_id))
  end.

(** Two requests that both load from [s], then commit one after the other. *)
Definition overlap (s : State) (r1 r2 : request) : State :=
  snd (request_reads s r2 (snd (request_reads s r1 s))).

(** States of the threaded server: requests run one at a time, or two of the
    requests above overlap.  Only some of the real interleavings are
    included. *)
Inductive treach : State -> Prop :=
| treach_init us bad : treach (empty_state us bad)
| treach_serial s s' : treach s -> step s s' -> treach s'
| treach_overlap s r1 r2 : treach s -> treach (overlap s r1 r2).


(** Two like requests on Alice's post, by Bob and by Alice, that overlap;
    and two comment requests on it that overlap. *)
Definition like_race_state : State := overlap post_state (ReqLike bob 1) (ReqLike alice 1).
Definition comment_race_state : State :=
  overlap post_state (ReqComment bob 1 "nice") (ReqComment alice 1 "thanks").

(** A run at hour 8 over three enabled users where writing the second
    user's (alice's) notification raises a store error. *)
Definition failing_later_state : State :=
  empty_state [demo_user 3 "carol" true; demo_user 1 "alice" true;
               demo_user 2 "bob" true] [1].

(** ** GET /api/social/posts with the query's integers as SQLite reads them:
    [int(request.args.get(...))] may be negative; a negative LIMIT returns
    every remaining row, a negative OFFSET skips none. *)
Definition sql_page {A : Type} (limit offset : Z) (l : list A) : list A :=
  let rest := skipn (Z.to_nat offset) l in
  if Z.ltb limit 0 then rest else firstn (Z.to_nat limit) rest.

(** The rows the query filters, newest first. *)
Definition posts_rows (s : State) (current_user : User) (user_id : option Z) : list Post :=
  rev (match user_id with
       | Some v => filter (fun p => Z.eqb p.(p_user_id) v) s.(posts)
       | None => filter (fun p => existsb (Z.eqb p.(p_user_id))
                                    (feed_friend_ids s current_user.(u_id)))
                        s.(posts)
       end).

Definition posts_query_sql (s : State) (current_user : User) (user_id : option Z)
    (limit offset : Z) : list Post :=
  sql_page limit offset (posts_rows s current_user user_id).

(** [has_more] is [len(posts) == limit]. *)
Definition posts_get_sql (s : State) (current_user : User) (user_id : option Z)
    (limit offset : Z) : option (list PostEntry * bool) :=
  let ps := posts_query_sql s current_user user_id limit offset in
  match post_entries s current_user.(u_id) ps with
  | Some es => Some (es, Z.eqb (Z.of_nat (List.length ps)) limit)
  | None => None
  end.

End App.

Import App.

(** ** Generic facts on the result type and [create_notification] *)

Lemma bind_rows (u : Z) (m : res) (k : State -> res) (s : State) :
  rows_of u (notifications (res_state m)) = rows_of u (notifications s) ->
  (forall s1, rows_of u (notifications (res_state (k s1))) = rows_of u (notifications s1)) ->
  rows_of u (notifications (res_state (bind m k))) = rows_of u (notifications s).
Proof. destruct m as [s0 | e s0]; simpl; intros H1 H2; [rewrite H2|]; exact H1. Qed.

Lemma bind_ok (P : State -> Prop) (m : res) (k : State -> res) :
  (exists s1, m = Ok s1 /\ P s1) ->
  (forall s1, P s1 -> exists s2, k s1 = Ok s2 /\ P s2) ->
  exists s2, bind m k = Ok s2 /\ P s2.
Proof. intros [s1 [-> H1]] H. simpl. apply H, H1. Qed.

Lemma create_notification_other (s : State) (uid : Z) (ti m ty : string) (u : Z) :
  uid <> u ->
  rows_of u (notifications (res_state (create_notification s uid ti m ty)))
  = rows_of u (notifications s).
Proof.
  intros H. unfold create_notification.
  destruct (Z.eqb uid 0); [reflexivity|]. cbn.
  destruct (existsb (Z.eqb uid) (bad_users s)); [reflexivity|]. cbn.
  unfold rows_of. rewrite filter_app. cbn.
  rewrite (proj2 (Z.eqb_neq uid u) H). apply app_nil_r.
Qed.

Lemma create_notification_ok (s : State) (uid : Z) (ti m ty : string) :
  uid <> 0 -> ~ In uid (bad_users s) ->
  create_notification s uid ti m ty
  = Ok (let n := mkNotification (next_id s) uid ti m ty false in
        mkState (users s) (notifications s ++ [n]) (posts s) (post_likes s)
          (comments s) (friendships s) (messages s) (water_logs s) (sleep_logs s)
          (fasting_sessions s) (presence s)
          (trace s ++ [EvCommitNotification n]
                   ++ [EvEmit (user_room uid) "new_notification"
                         (notification_payload ti m ty)])
          (next_id s + 1) (bad_users s)).
Proof.
  intros H0 Hbad. unfold create_notification.
  rewrite (proj2 (Z.eqb_neq uid 0) H0).
  destruct (existsb (Z.eqb uid) (bad_users s)) eqn:E.
  - apply existsb_exists in E as [x [Hx Ex]]. apply Z.eqb_eq in Ex. subst x.
    contradiction.
  - cbn. rewrite <- app_assoc. reflexivity.
Qed.

Lemma create_notification_nobad (s : State) (uid : Z) (ti m ty : string) :
  bad_users s = [] ->
  exists s', create_notification s uid ti m ty = Ok s'
             /\ users s' = users s /\ bad_users s' = [].
Proof.
  intros Hb. unfold create_notification. rewrite Hb.
  destruct (Z.eqb uid 0); cbn; eexists; repeat split; eauto.
Qed.

(** The users [u1 = u2] of a list with distinct ids. *)
Lemma nodup_ids_eq (l : list User) (a b : User) :
  NoDup (map u_id l) -> In a l -> In b l -> u_id a = u_id b -> a = b.
Proof.
  induction l as [|x l IH]; simpl; [tauto|].
  intros Hnd Ha Hb Hab. inversion Hnd as [|? ? Hx Hnd']; subst.
  destruct Ha as [<-|Ha], Hb as [<-|Hb]; auto.
  - exfalso. apply Hx. rewrite Hab. apply in_map, Hb.
  - exfalso. apply Hx. rewrite <- Hab. apply in_map, Ha.
Qed.

Ltac rows_tac :=
  repeat match goal with
  | |- rows_of _ (notifications (res_state (bind _ _))) = _ =>
      apply bind_rows; [ | intro ]
  | |- rows_of _ (notifications (res_state (Ok _))) = _ => reflexivity
  | |- context [if ?b then _ else _] => destruct b
  | |- rows_of _ (notifications (res_state (create_notification _ _ _ _ _))) = _ =>
      apply create_notification_other; assumption
  end.

Lemma remind_user_other (hour : Z) (v : User) (s : State) (u : Z) :
  u_id v <> u ->
  rows_of u (notifications (res_state (remind_user hour v s))) = rows_of u (notifications s).
Proof. intros H. unfold remind_user. rows_tac. Qed.

Lemma remind_all_other (hour : Z) (u : Z) (us : list User) (s : State) :
  (forall v, In v us -> u_id v <> u) ->
  rows_of u (notifications (res_state (remind_all hour us s))) = rows_of u (notifications s).
Proof.
  revert s. induction us as [|v us IH]; intros s H; [reflexivity|].
  simpl. apply bind_rows.
  - apply remind_user_other, H. left; reflexivity.
  - intros s1. apply IH. intros w Hw. apply H. right; exact Hw.
Qed.

(** A run at hour 8 with no failing store: every notification write
    succeeds, and each user with id [uid] and the meal toggle on gets one
    breakfast row. *)
Lemma remind_user_8 (v : User) (s : State) (uid : Z) :
  bad_users s = [] ->
  exists s', remind_user 8 v s = Ok s' /\ users s' = users s /\ bad_users s' = []
    /\ count_breakfast uid (notifications s')
       = (count_breakfast uid (notifications s)
          + (if Z.eqb (u_id v) uid && negb (Z.eqb (u_id v) 0) && meal_reminder v
             then 1 else 0))%nat.
Proof.
  intros Hb. destruct s as [us ns ps ls cs fs ms ws ss fss pr tr nid bad].
  simpl in Hb. subst bad.
  destruct v as [vid vname ven vw vm vwo vs vf].
  unfold remind_user, create_notification, count_breakfast. cbn.
  destruct (Z.eqb vid 0) eqn:E0.
  - destruct vw, vm, vwo, vs; cbn;
      (eexists; split; [reflexivity|]); cbn; repeat split;
      rewrite ?Bool.andb_false_r; cbn; lia.
  - destruct vw, vm, vwo, vs; cbn;
      (eexists; split; [reflexivity|]); cbn; repeat split;
      rewrite ?filter_app, ?length_app; cbn;
      destruct (Z.eqb vid uid); cbn; lia.
Qed.

Lemma remind_all_8 (us : list User) (s : State) (uid : Z) :
  bad_users s = [] ->
  exists s', remind_all 8 us s = Ok s' /\ users s' = users s /\ bad_users s' = []
    /\ count_breakfast uid (notifications s')
       = (count_breakfast uid (notifications s)
          + List.length (filter (fun v => Z.eqb (u_id v) uid && negb (Z.eqb (u_id v) 0)
                                          && meal_reminder v) us))%nat.
Proof.
  revert s. induction us as [|v us IH]; intros s Hb.
  - exists s. cbn. repeat split; auto; lia.
  - cbn [remind_all]. destruct (remind_user_8 v s uid Hb) as [s1 [E1 [U1 [B1 C1]]]].
    rewrite E1. cbn [bind].
    destruct (IH s1 B1) as [s2 [E2 [U2 [B2 C2]]]].
    exists s2. repeat split; auto; [congruence|].
    rewrite C2, C1. cbn [filter].
    destruct (Z.eqb (u_id v) uid && negb (Z.eqb (u_id v) 0) && meal_reminder v);
      cbn [List.length]; lia.
Qed.

(** In a users table with distinct ids, the enabled users with [u]'s id and
    the meal toggle on are [u] alone. *)
Lemma count_same_id_absent (l : list User) (x : Z) (P : User -> bool) :
  ~ In x (map u_id l) ->
  List.length (filter (fun v => Z.eqb (u_id v) x && P v) l) = 0%nat.
Proof.
  induction l as [|a l IH]; intros H; [reflexivity|].
  cbn. destruct (Z.eqb (u_id a) x) eqn:E.
  - exfalso. apply Z.eqb_eq in E. apply H. left. exact E.
  - apply IH. intros Hx. apply H. right. exact Hx.
Qed.

Lemma count_unique_meal (l : list User) (u : User) :
  NoDup (map u_id l) -> In u l -> notifications_enabled u = true ->
  meal_reminder u = true -> u_id u <> 0 ->
  List.length (filter (fun v => Z.eqb (u_id v) (u_id u) && negb (Z.eqb (u_id v) 0)
                                && meal_reminder v)
                      (filter notifications_enabled l)) = 1%nat.
Proof.
  induction l as [|a l IH]; intros Hnd Hin Hen Hm H0; [destruct Hin|].
  inversion Hnd as [|? ? Hx Hnd']; subst.
  destruct Hin as [<-|Hin].
  - cbn. rewrite Hen. cbn. rewrite Z.eqb_refl, (proj2 (Z.eqb_neq _ _) H0), Hm.
    cbn. f_equal.
    rewrite <- (count_same_id_absent (filter notifications_enabled l) (u_id a)
                  (fun v => negb (Z.eqb (u_id v) 0) && meal_reminder v)).
    + f_equal. apply filter_ext. intros v. symmetry. apply andb_assoc.
    + intros Hx'. apply Hx. apply in_map_iff in Hx' as [w [Hw Hw']].
      apply filter_In in Hw' as [Hw' _]. rewrite <- Hw. apply in_map, Hw'.
  - cbn. assert (Hne : u_id a <> u_id u).
    { intros E. apply Hx. rewrite E. apply in_map, Hin. }
    destruct (notifications_enabled a); cbn;
      [rewrite (proj2 (Z.eqb_neq _ _) Hne); cbn|]; apply IH; auto.
Qed.


Lemma remind_all_app_raise (hour : Z) (pre post : list User) (u : User)
    (s s1 s2 : State) (e : string) :
  remind_all hour pre s = Ok s1 -> remind_user hour u s1 = Raise e s2 ->
  remind_all hour (pre ++ u :: post)%list s = Raise e s2.
Proof.
  revert s. induction pre as [|v pre IH]; intros s Hpre Hu.
  - cbn in Hpre. injection Hpre as <-. cbn. rewrite Hu. reflexivity.
  - cbn in Hpre |- *. destruct (remind_user hour v s) as [s' | e' s']; cbn in Hpre |- *.
    + apply IH; assumption.
    + discriminate Hpre.
Qed.

(** ** C1 *)

(** C1: a user whose master [notifications_enabled] flag is off gets no
    notification row from a run of [check_and_send_notifications], at any
    hour and for any setting of the water, meal, workout and sleep toggles
    (user ids are distinct, as the primary key makes them; the run may even
    end in a store error). *)
Theorem master_flag_off_no_reminder (s : State) (u : User) (hour : Z) :
  In u (users s) -> notifications_enabled u = false -> NoDup (map u_id (users s)) ->
  rows_of (u_id u) (notifications (res_state (check_and_send_notifications hour s)))
  = rows_of (u_id u) (notifications s).
Proof.
  intros Hin Hoff Hnd. apply remind_all_other. intros v Hv Heq.
  apply filter_In in Hv as [Hv Hon].
  assert (v = u) by (apply (nodup_ids_eq (users s)); auto). subst v. congruence.
Qed.

Lemma master_flag_off_no_reminder_witness :
  rows_of 1 (notifications (res_state
     (check_and_send_notifications 8 (empty_state [user_a; user_b] []))))
  = rows_of 1 (notifications (empty_state [user_a; user_b] [])).
Proof.
  apply (master_flag_off_no_reminder (empty_state [user_a; user_b] []) user_a 8).
  - cbn. left. reflexivity.
  - reflexivity.
  - cbn. repeat constructor; cbn; lia.
Defined.

(** ** C2 *)

(** C2 (counterexample): two runs of the evaluator at hour 8 for an
    eligible user with the meal toggle on leave two breakfast rows, not
    one. *)
Lemma reminder_tick_duplicates_breakfast :
  exists s, two_runs_at_8 = Ok s /\ count_breakfast 1 (notifications s) = 2%nat.
Proof. eexists. split; [vm_compute; reflexivity | vm_compute; reflexivity]. Qed.

(** C2 (amended): every run at hour 8 creates exactly one breakfast [meal]
    row for each enabled user with the meal toggle on; the evaluator keeps
    no per-hour state, so a second run in the same hour creates a second
    one (ids distinct, no store error, user id non-zero). *)
Theorem reminder_breakfast_each_run (s : State) (u : User) :
  In u (users s) -> NoDup (map u_id (users s)) -> notifications_enabled u = true ->
  meal_reminder u = true -> u_id u <> 0 -> bad_users s = [] ->
  exists s1 s2,
    check_and_send_notifications 8 s = Ok s1
    /\ check_and_send_notifications 8 s1 = Ok s2
    /\ count_breakfast (u_id u) (notifications s1)
       = S (count_breakfast (u_id u) (notifications s))
    /\ count_breakfast (u_id u) (notifications s2)
       = S (S (count_breakfast (u_id u) (notifications s))).
Proof.
  intros Hin Hnd Hen Hm H0 Hb. unfold check_and_send_notifications.
  destruct (remind_all_8 (filter notifications_enabled (users s)) s (u_id u) Hb)
    as [s1 [E1 [U1 [B1 C1]]]].
  destruct (remind_all_8 (filter notifications_enabled (users s1)) s1 (u_id u) B1)
    as [s2 [E2 [U2 [B2 C2]]]].
  rewrite count_unique_meal in C1 by assumption.
  rewrite U1, count_unique_meal in C2 by assumption.
  exists s1, s2. repeat split; [exact E1 | exact E2 | lia | lia].
Qed.

Lemma reminder_breakfast_each_run_witness :
  exists s1 s2,
    check_and_send_notifications 8 (empty_state [demo_user 1 "alice" true] []) = Ok s1
    /\ check_and_send_notifications 8 s1 = Ok s2
    /\ count_breakfast 1 (notifications s1)
       = S (count_breakfast 1 (notifications (empty_state [demo_user 1 "alice" true] [])))
    /\ count_breakfast 1 (notifications s2)
       = S (S (count_breakfast 1 (notifications (empty_state [demo_user 1 "alice" true] [])))).
Proof.
  apply (reminder_breakfast_each_run (empty_state [demo_user 1 "alice" true] [])
           (demo_user 1 "alice" true)).
  - cbn. left. reflexivity.
  - cbn. repeat constructor. cbn. tauto.
  - reflexivity.
  - reflexivity.
  - cbn. lia.
  - reflexivity.
Defined.

(** ** C3 *)




Lemma create_notification_cn_frame (s : State) (uid : Z) (ti m ty : string) :
  cn_frame s (res_state (create_notification s uid ti m ty)).
Proof.
  unfold create_notification, cn_frame.
  destruct (Z.eqb uid 0); cbn.
  - repeat split. exists []. symmetry. apply app_nil_r.
  - destruct existsb; cbn.
    + repeat split. exists []. symmetry. apply app_nil_r.
    + repeat split. eexists. reflexivity.
Qed.

Lemma cn_frame_refl (s : State) : cn_frame s s.
Proof. unfold cn_frame. repeat split. exists []. symmetry. apply app_nil_r. Qed.

Lemma cn_frame_trans (s1 s2 s3 : State) :
  cn_frame s1 s2 -> cn_frame s2 s3 -> cn_frame s1 s3.
Proof.
  unfold cn_frame.
  intros (A1 & B1 & C1 & D1 & E1 & F1 & G1 & H1 & I1 & J1 & K1 & ns1 & L1)
         (A2 & B2 & C2 & D2 & E2 & F2 & G2 & H2 & I2 & J2 & K2 & ns2 & L2).
  repeat split; try congruence.
  exists (ns1 ++ ns2)%list. rewrite L2, L1, <- app_assoc. reflexivity.
Qed.

Lemma bind_cn_frame (m : res) (k : State -> res) (s : State) :
  cn_frame s (res_state m) ->
  (forall s1, cn_frame s1 (res_state (k s1))) ->
  cn_frame s (res_state (bind m k)).
Proof.
  destruct m as [s0|e s0]; cbn; intros H1 H2; [eapply cn_frame_trans; eauto|exact H1].
Qed.

Lemma remind_all_cn_frame (hour : Z) (us : list User) (s : State) :
  cn_frame s (res_state (remind_all hour us s)).
Proof.
  revert s. induction us as [|v us IH]; intros s; [apply cn_frame_refl|].
  cbn [remind_all]. apply bind_cn_frame; [|exact IH].
  unfold remind_user.
  repeat match goal with
  | |- cn_frame _ (res_state (bind _ _)) => apply bind_cn_frame; [ | intro ]
  | |- cn_frame ?s (res_state (Ok ?s)) => apply cn_frame_refl
  | |- cn_frame ?s (res_state (create_notification ?s _ _ _ _)) =>
      apply create_notification_cn_frame
  | |- context [if ?b then _ else _] => destruct b
  end.
Qed.


(** ** C7 *)

(** C7 (counterexample): when writing user 1's reminder raises, the run
    raises and user 2, later in the list, gets no reminder. *)
Lemma reminder_failure_aborts_run :
  (exists e s, failing_run = Raise e s)
  /\ rows_of 2 (notifications (res_state failing_run)) = [].
Proof. split; [do 2 eexists; vm_compute; reflexivity | vm_compute; reflexivity]. Qed.

(** C7 (amended): a store error raised while creating one user's
    notification is not caught: the run raises it; the notifications the
    users before it committed remain (the failing user's own earlier writes
    are only appended after them); and the users after it in the list are
    not evaluated: the run's outcome is the same whatever users follow. *)
Theorem reminder_failure_propagates (hour : Z) (s s1 s2 : State)
    (pre post : list User) (u : User) (e : string) :
  filter notifications_enabled (users s) = (pre ++ u :: post)%list ->
  remind_all hour pre s = Ok s1 -> remind_user hour u s1 = Raise e s2 ->
  check_and_send_notifications hour s = Raise e s2
  /\ (exists ns, notifications s2 = (notifications s1 ++ ns)%list)
  /\ (forall post', remind_all hour (pre ++ u :: post')%list s = Raise e s2).
Proof.
  intros Hus Hpre Hu. split; [|split].
  - unfold check_and_send_notifications. rewrite Hus.
    apply (remind_all_app_raise hour pre post u s s1 s2 e Hpre Hu).
  - pose proof (remind_all_cn_frame hour [u] s1) as Hf. cbn [remind_all] in Hf.
    rewrite Hu in Hf. cbn in Hf.
    destruct Hf as (_ & _ & _ & _ & _ & _ & _ & _ & _ & _ & _ & Hn). exact Hn.
  - intros post'. apply (remind_all_app_raise hour pre post' u s s1 s2 e Hpre Hu).
Qed.

Lemma reminder_failure_propagates_witness :
  check_and_send_notifications 8 failing_later_state
    = Raise "store error"
        (res_state (remind_user 8 (demo_user 1 "alice" true)
                      (res_state (remind_all 8 [demo_user 3 "carol" true] failing_later_state))))
  /\ (exists ns, notifications (res_state (remind_user 8 (demo_user 1 "alice" true)
                      (res_state (remind_all 8 [demo_user 3 "carol" true] failing_later_state))))
       = (notifications (res_state (remind_all 8 [demo_user 3 "carol" true] failing_later_state))
          ++ ns)%list)
  /\ (forall post', remind_all 8 ([demo_user 3 "carol" true] ++ demo_user 1 "alice" true :: post')%list
                      failing_later_state
       = Raise "store error"
           (res_state (remind_user 8 (demo_user 1 "alice" true)
                         (res_state (remind_all 8 [demo_user 3 "carol" true] failing_later_state))))).
Proof.
  apply (reminder_failure_propagates 8 failing_later_state
           (res_state (remind_all 8 [demo_user 3 "carol" true] failing_later_state))
           (res_state (remind_user 8 (demo_user 1 "alice" true)
                         (res_state (remind_all 8 [demo_user 3 "carol" true] failing_later_state))))
           [demo_user 3 "carol" true] [demo_user 2 "bob" true] (demo_user 1 "alice" true)
           "store error").
  - reflexivity.
  - vm_compute. reflexivity.
  - vm_compute. reflexivity.
Defined.

(** ** Frame of [create_notification]: it writes only the notification
    table, the trace and the id counter. *)
Lemma create_notification_frame (s : State) (uid : Z) (ti m ty : string) :
  exists ns tr nid,
    res_state (create_notification s uid ti m ty)
    = mkState (users s) ns (posts s) (post_likes s) (comments s) (friendships s)
        (messages s) (water_logs s) (sleep_logs s) (fasting_sessions s)
        (presence s) tr nid (bad_users s).
Proof.
  destruct s. unfold create_notification.
  destruct (Z.eqb uid 0); [do 3 eexists; reflexivity|]. cbn.
  destruct existsb; do 3 eexists; reflexivity.
Qed.

Lemma find_by_username (l : list User) (b : User) :
  NoDup (map username l) -> In b l ->
  find (fun u => String.eqb (username u) (username b)) l = Some b.
Proof.
  induction l as [|x l IH]; intros Hnd Hin; [destruct Hin|].
  inversion Hnd as [|? ? Hx Hnd']; subst. cbn.
  destruct Hin as [<-|Hin].
  - rewrite String.eqb_refl. reflexivity.
  - destruct (String.eqb (username x) (username b)) eqn:E.
    + apply String.eqb_eq in E. exfalso. apply Hx. rewrite E. apply in_map, Hin.
    + apply IH; assumption.
Qed.

(** ** C4 *)

(** C4: for distinct registered users [a] and [b] (usernames unique), once
    [a]'s request to [b] succeeded, [b]'s request to [a] is refused with
    "Friendship already exists" and changes nothing: the existence check
    looks at both orientations. *)
Theorem send_request_symmetric_conflict (s s1 : State) (a b : User)
    (body : list (string * value)) :
  In a (users s) -> In b (users s) -> NoDup (map username (users s)) ->
  u_id a <> u_id b ->
  send_request s a (username b) = (Resp 200 body, s1) ->
  send_request s1 b (username a) = (error_resp 400 "Friendship already exists", s1).
Proof.
  intros Ha Hb Hnd Hab Hsend. unfold send_request in Hsend.
  unfold find_user_by_username in Hsend. rewrite find_by_username in Hsend by assumption.
  rewrite (proj2 (Z.eqb_neq (u_id b) (u_id a)) (not_eq_sym Hab)) in Hsend.
  destruct (friendship_between s (u_id a) (u_id b)); [discriminate Hsend|].
  cbn in Hsend.
  set (s2 := set_friendships (set_next_id s (next_id s + 1))
               (friendships s ++ [mkFriendship (next_id s) (u_id a) (u_id b) "pending"])) in Hsend.
  destruct (create_notification_frame s2 (u_id b) "New Friend Request"
              (username a ++ " sent you a friend request!") "social") as [ns [tr [nid Hf]]].
  destruct (create_notification s2 (u_id b) "New Friend Request"
              (username a ++ " sent you a friend request!") "social") as [s3|e s3];
    [|discriminate Hsend].
  injection Hsend as _ <-. cbn in Hf. subst s3.
  unfold send_request, find_user_by_username. cbn [users].
  rewrite find_by_username by assumption.
  rewrite (proj2 (Z.eqb_neq (u_id a) (u_id b)) Hab).
  unfold friendship_between. cbn [friendships].
  destruct (find _ _) as [f|] eqn:E; [reflexivity|].
  exfalso.
  pose proof (find_none _ _ E (mkFriendship (next_id s) (u_id a) (u_id b) "pending")) as Hn.
  cbn in Hn. rewrite !Z.eqb_refl, orb_true_r in Hn.
  discriminate Hn. apply in_or_app. right. left. reflexivity.
Qed.

Lemma send_request_symmetric_conflict_witness :
  send_request (snd (send_request (empty_state [alice; bob] []) alice "bob")) bob "alice"
  = (error_resp 400 "Friendship already exists",
     snd (send_request (empty_state [alice; bob] []) alice "bob")).
Proof.
  apply (send_request_symmetric_conflict (empty_state [alice; bob] [])
           (snd (send_request (empty_state [alice; bob] []) alice "bob")) alice bob
           [("success", VBool true); ("message", VStr "Friend request sent")]).
  - cbn. left. reflexivity.
  - cbn. right. left. reflexivity.
  - cbn. repeat constructor; cbn; intuition discriminate.
  - cbn. lia.
  - vm_compute. reflexivity.
Defined.

(** ** C6 *)

(** C6 (failing input): [respond] does not look at the status.  Bob,
    recipient of an already accepted friendship, "accepts" it again: the
    call succeeds and Alice receives a second "Friend Request Accepted"
    notification, where the claim expects a NotFound failure. *)
Lemma respond_accepts_non_pending :
  respond accepted_state bob 1 true
  = (ok_resp [("message", VStr "Friend request accepted")],
     mkState [alice; bob]
       [mkNotification 2 1 "Friend Request Accepted" "bob accepted your friend request!"
          "social" false]
       [] [] [] [mkFriendship 1 1 2 "accepted"] [] [] [] [] []
       [EvCommitNotification
          (mkNotification 2 1 "Friend Request Accepted" "bob accepted your friend request!"
             "social" false);
        EvEmit (user_room 1) "new_notification"
          (notification_payload "Friend Request Accepted"
             "bob accepted your friend request!" "social")]
       3 []).
Proof. vm_compute. reflexivity. Qed.

Lemma like_rows_snoc (ls : list PostLike) (l : PostLike) (q : Z) :
  like_rows (ls ++ [l]) q = (like_rows ls q + if Z.eqb (l_post_id l) q then 1 else 0)%nat.
Proof.
  unfold like_rows. rewrite filter_app, length_app. cbn.
  destruct (Z.eqb (l_post_id l) q); reflexivity.
Qed.

Lemma comment_rows_snoc (cs : list Comment) (c : Comment) (q : Z) :
  comment_rows (cs ++ [c]) q = (comment_rows cs q + if Z.eqb (c_post_id c) q then 1 else 0)%nat.
Proof.
  unfold comment_rows. rewrite filter_app, length_app. cbn.
  destruct (Z.eqb (c_post_id c) q); reflexivity.
Qed.

Lemma like_rows_fresh (ls : list PostLike) (nid : Z) :
  (forall l, In l ls -> l_post_id l < nid) -> like_rows ls nid = 0%nat.
Proof.
  unfold like_rows. induction ls as [|a ls IH]; intros H; [reflexivity|].
  cbn. assert (Ha : l_post_id a < nid) by (apply H; left; reflexivity).
  rewrite (proj2 (Z.eqb_neq (l_post_id a) nid) ltac:(lia)).
  apply IH. intros l Hl. apply H. right. exact Hl.
Qed.

Lemma comment_rows_fresh (cs : list Comment) (nid : Z) :
  (forall c, In c cs -> c_post_id c < nid) -> comment_rows cs nid = 0%nat.
Proof.
  unfold comment_rows. induction cs as [|a cs IH]; intros H; [reflexivity|].
  cbn. assert (Ha : c_post_id a < nid) by (apply H; left; reflexivity).
  rewrite (proj2 (Z.eqb_neq (c_post_id a) nid) ltac:(lia)).
  apply IH. intros c Hc. apply H. right. exact Hc.
Qed.

Lemma filter_keep_all (A : Type) (g : A -> bool) (l : list A) :
  (forall x, In x l -> g x = true) -> filter g l = l.
Proof.
  induction l as [|a l IH]; intros H; [reflexivity|].
  cbn. rewrite (H a (or_introl eq_refl)). f_equal.
  apply IH. intros x Hx. apply H. right. exact Hx.
Qed.

(** Deleting the like [l0] by its id removes exactly that row. *)
Lemma like_rows_delete (ls : list PostLike) (l0 : PostLike) (q : Z) :
  In l0 ls -> NoDup (map l_id ls) ->
  (like_rows (filter (fun x => negb (Z.eqb (l_id x) (l_id l0))) ls) q
   + (if Z.eqb (l_post_id l0) q then 1 else 0) = like_rows ls q)%nat.
Proof.
  unfold like_rows. induction ls as [|a ls IH]; intros Hin Hnd; [destruct Hin|].
  inversion Hnd as [|? ? Hx Hnd']; subst.
  destruct Hin as [<-|Hin].
  - cbn. rewrite Z.eqb_refl. cbn.
    rewrite (filter_keep_all _ (fun x => negb (Z.eqb (l_id x) (l_id a)))).
    + destruct (Z.eqb (l_post_id a) q); cbn; lia.
    + intros x Hx'. apply negb_true_iff, Z.eqb_neq. intros E.
      apply Hx. rewrite <- E. apply in_map, Hx'.
  - assert (Hne : l_id a <> l_id l0).
    { intros E. apply Hx. rewrite E. apply in_map, Hin. }
    cbn. rewrite (proj2 (Z.eqb_neq _ _) Hne). cbn.
    specialize (IH Hin Hnd').
    destruct (Z.eqb (l_post_id a) q); cbn; lia.
Qed.

Lemma NoDup_map_filter (A B : Type) (f : A -> B) (g : A -> bool) (l : list A) :
  NoDup (map f l) -> NoDup (map f (filter g l)).
Proof.
  induction l as [|a l IH]; intros Hnd; [constructor|].
  inversion Hnd as [|? ? Hx Hnd']; subst. cbn.
  destruct (g a); [|apply IH, Hnd'].
  cbn. constructor; [|apply IH, Hnd'].
  intros Hin. apply Hx. apply in_map_iff in Hin as [y [Hy Hy']].
  apply filter_In in Hy' as [Hy' _]. rewrite <- Hy. apply in_map, Hy'.
Qed.

Lemma NoDup_snoc (A : Type) (l : list A) (x : A) :
  NoDup l -> ~ In x l -> NoDup (l ++ [x]).
Proof.
  induction l as [|a l IH]; intros Hnd Hx; cbn; [repeat constructor; auto|].
  inversion Hnd as [|? ? Ha Hnd']; subst. constructor.
  - intros Hin. apply in_app_or in Hin as [Hin|[E|[]]]; [tauto|].
    apply Hx. left. symmetry. exact E.
  - apply IH; [exact Hnd'|]. intros Hin. apply Hx. right. exact Hin.
Qed.

Lemma social_inv_mono (ps : list Post) (ls : list PostLike) (cs : list Comment) (nid nid' : Z) :
  social_inv ps ls cs nid -> nid <= nid' -> social_inv ps ls cs nid'.
Proof.
  intros [Hp [Hl [Hc [H1 [H2 H3]]]]] Hle.
  split; [|split; [|split; [|split; [|split]]]]; auto.
  - intros p Hin. specialize (Hp p Hin). lia.
  - intros l Hin. specialize (Hl l Hin). lia.
  - intros c Hin. specialize (Hc c Hin). lia.
Qed.

Lemma in_post_upd (pid : Z) (g : Post -> Post) (ps : list Post) (p : Post) :
  In p (map (post_upd pid g) ps) ->
  exists q, In q ps /\ ((Z.eqb (p_id q) pid = true /\ p = g q)
                        \/ (Z.eqb (p_id q) pid = false /\ p = q)).
Proof.
  intros Hin. apply in_map_iff in Hin as [q [<- Hq]]. exists q. split; [exact Hq|].
  unfold post_upd. destruct (Z.eqb (p_id q) pid); [left|right]; auto.
Qed.

(** A new like by [uid] on the existing post [pid], with the counter
    incremented. *)
Lemma social_inv_add_like (ps : list Post) (ls : list PostLike) (cs : list Comment)
    (nid : Z) (post : Post) (uid pid : Z) :
  social_inv ps ls cs nid -> In post ps -> p_id post = pid ->
  (forall l, In l ls -> ~ (l_user_id l = uid /\ l_post_id l = pid)) ->
  social_inv (map (post_upd pid (add_likes 1)) ps) (ls ++ [mkPostLike nid uid pid])
    cs (nid + 1).
Proof.
  intros [Hp [Hl [Hc [H1 [H2 H3]]]]] Hin Hpid Hnone.
  assert (Hpost : pid < nid) by (subst pid; apply Hp, Hin).
  split; [|split; [|split; [|split; [|split]]]].
  - intros p Hp'. apply in_post_upd in Hp' as [q [Hq [[_ ->]|[_ ->]]]];
      cbn; specialize (Hp q Hq); lia.
  - intros l Hl'. apply in_app_or in Hl' as [Hl'|[<-|[]]].
    + specialize (Hl l Hl'). lia.
    + cbn. lia.
  - intros c Hc'. specialize (Hc c Hc'). lia.
  - rewrite map_app. apply NoDup_snoc; [exact H1|]. cbn.
    intros Hx. apply in_map_iff in Hx as [l [Hl1 Hl2]]. specialize (Hl l Hl2). lia.
  - rewrite map_app. apply NoDup_snoc; [exact H2|]. cbn.
    intros Hx. apply in_map_iff in Hx as [l [Hl1 Hl2]]. injection Hl1 as E1 E2.
    apply (Hnone l Hl2). auto.
  - intros p Hp'. apply in_post_upd in Hp' as [q [Hq [[E ->]|[E ->]]]];
      cbn; rewrite like_rows_snoc; cbn; rewrite Z.eqb_sym, E;
      destruct (H3 q Hq) as [Hq1 Hq2]; split; lia.
Qed.

(** Deleting the like [l0] of post [pid], with the counter decremented. *)
Lemma social_inv_del_like (ps : list Post) (ls : list PostLike) (cs : list Comment)
    (nid : Z) (l0 : PostLike) (pid : Z) :
  social_inv ps ls cs nid -> In l0 ls -> l_post_id l0 = pid ->
  social_inv (map (post_upd pid (add_likes (-1))) ps)
    (filter (fun x => negb (Z.eqb (l_id x) (l_id l0))) ls) cs nid.
Proof.
  intros [Hp [Hl [Hc [H1 [H2 H3]]]]] Hin Hpid.
  split; [|split; [|split; [|split; [|split]]]].
  - intros p Hp'. apply in_post_upd in Hp' as [q [Hq [[_ ->]|[_ ->]]]];
      cbn; specialize (Hp q Hq); lia.
  - intros l Hl'. apply filter_In in Hl' as [Hl' _]. apply Hl, Hl'.
  - exact Hc.
  - apply NoDup_map_filter, H1.
  - apply NoDup_map_filter, H2.
  - intros p Hp'.
    pose proof (like_rows_delete ls l0 (p_id p) Hin H1) as Hd.
    apply in_post_upd in Hp' as [q [Hq [[E ->]|[E ->]]]];
      cbn in Hd |- *; rewrite Hpid, Z.eqb_sym, E in Hd;
      destruct (H3 q Hq) as [Hq1 Hq2]; split; lia.
Qed.

(** A new comment on the existing post [pid], with the counter
    incremented. *)
Lemma social_inv_add_comment (ps : list Post) (ls : list PostLike) (cs : list Comment)
    (nid : Z) (post : Post) (uid pid : Z) (content : string) :
  social_inv ps ls cs nid -> In post ps -> p_id post = pid ->
  social_inv (map (post_upd pid (add_comments 1)) ps) ls
    (cs ++ [mkComment nid uid pid content]) (nid + 1).
Proof.
  intros [Hp [Hl [Hc [H1 [H2 H3]]]]] Hin Hpid.
  assert (Hpost : pid < nid) by (subst pid; apply Hp, Hin).
  split; [|split; [|split; [|split; [|split]]]].
  - intros p Hp'. apply in_post_upd in Hp' as [q [Hq [[_ ->]|[_ ->]]]];
      cbn; specialize (Hp q Hq); lia.
  - intros l Hl'. specialize (Hl l Hl'). lia.
  - intros c Hc'. apply in_app_or in Hc' as [Hc'|[<-|[]]].
    + specialize (Hc c Hc'). lia.
    + cbn. lia.
  - exact H1.
  - exact H2.
  - intros p Hp'. apply in_post_upd in Hp' as [q [Hq [[E ->]|[E ->]]]];
      cbn; rewrite comment_rows_snoc; cbn; rewrite Z.eqb_sym, E;
      destruct (H3 q Hq) as [Hq1 Hq2]; split; lia.
Qed.

(** A new post with both counters at 0. *)
Lemma social_inv_add_post (ps : list Post) (ls : list PostLike) (cs : list Comment)
    (nid uid : Z) (content : string) :
  social_inv ps ls cs nid ->
  social_inv (ps ++ [mkPost nid uid content 0 0]) ls cs (nid + 1).
Proof.
  intros [Hp [Hl [Hc [H1 [H2 H3]]]]].
  split; [|split; [|split; [|split; [|split]]]].
  - intros p Hp'. apply in_app_or in Hp' as [Hp'|[<-|[]]]; [specialize (Hp p Hp')|cbn]; lia.
  - intros l Hl'. specialize (Hl l Hl'). lia.
  - intros c Hc'. specialize (Hc c Hc'). lia.
  - exact H1.
  - exact H2.
  - intros p Hp'. apply in_app_or in Hp' as [Hp'|[<-|[]]]; [apply H3, Hp'|].
    cbn. rewrite like_rows_fresh, comment_rows_fresh; [split; reflexivity| |].
    + intros c Hc'. apply Hc, Hc'.
    + intros l Hl'. apply Hl, Hl'.
Qed.

(** ** Frames of the requests that do not touch posts, likes or comments *)

Lemma frame_refl (s : State) : social_frame s s.
Proof. unfold social_frame. repeat split; lia. Qed.

Lemma frame_trans (s1 s2 s3 : State) :
  social_frame s1 s2 -> social_frame s2 s3 -> social_frame s1 s3.
Proof.
  unfold social_frame. intros [A1 [B1 [C1 D1]]] [A2 [B2 [C2 D2]]].
  repeat split; congruence || lia.
Qed.

Lemma create_notification_social (s : State) (uid : Z) (ti m ty : string) :
  social_frame s (res_state (create_notification s uid ti m ty)).
Proof.
  unfold create_notification. destruct (Z.eqb uid 0); [apply frame_refl|]. cbn.
  destruct existsb; [apply frame_refl|]. unfold social_frame; cbn. repeat split; lia.
Qed.

Lemma bind_frame (m : res) (k : State -> res) (s : State) :
  social_frame s (res_state m) ->
  (forall s1, social_frame s1 (res_state (k s1))) ->
  social_frame s (res_state (bind m k)).
Proof. destruct m as [s0|e s0]; cbn; intros H1 H2; [eapply frame_trans; eauto|exact H1]. Qed.

Ltac frame_tac :=
  repeat match goal with
  | |- social_frame _ (res_state (bind _ _)) => apply bind_frame; [ | intro ]
  | |- social_frame ?s (res_state (Ok ?s)) => apply frame_refl
  | |- social_frame ?s (res_state (create_notification ?s _ _ _ _)) =>
      apply create_notification_social
  | |- context [if ?b then _ else _] => destruct b
  end.

Lemma remind_all_frame (hour : Z) (us : list User) (s : State) :
  social_frame s (res_state (remind_all hour us s)).
Proof.
  revert s. induction us as [|v us IH]; intros s; [apply frame_refl|].
  cbn [remind_all]. apply bind_frame; [|exact IH].
  unfold remind_user. frame_tac.
Qed.

(** After the handler is unfolded: split on its tests, and close each
    branch through the frame of [create_notification]. *)
Ltac handler_frame :=
  cbv beta iota zeta;
  repeat match goal with
  | |- context [match create_notification ?s ?u ?t ?m ?ty with _ => _ end] =>
      generalize (create_notification_social s u t m ty);
      destruct (create_notification s u t m ty); cbn [snd res_state]; intro
  | |- context [match ?x with _ => _ end] => destruct x
  end;
  cbn [snd];
  match goal with
  | H : social_frame ?a ?b |- social_frame ?s ?b =>
      apply (frame_trans s a b); [unfold social_frame; cbn; repeat split; lia | exact H]
  | |- social_frame _ _ => unfold social_frame; cbn; repeat split; lia
  end.

Lemma friends_post_frame (s : State) (cu : User) (a n : string) (fid : Z) :
  social_frame s (snd (friends_post s cu a n fid)).
Proof.
  unfold friends_post, send_request, respond, fresh_id. handler_frame.
Qed.

Lemma remove_friend_frame (s : State) (cu : User) (fid : Z) :
  social_frame s (snd (remove_friend s cu fid)).
Proof. unfold remove_friend, delete_friendship. handler_frame. Qed.

Lemma handle_send_message_frame (s : State) (cu : User) (rid : Z) (c : string) :
  social_frame s (handle_send_message s cu rid c).
Proof.
  unfold handle_send_message, fresh_id. cbv beta iota zeta.
  eapply frame_trans; [|apply create_notification_social].
  unfold social_frame; cbn; repeat split; lia.
Qed.

Lemma log_water_frame (s : State) (cu : User) (a : Q) (d : Z) :
  social_frame s (snd (log_water s cu a d)).
Proof. unfold log_water, fresh_id. handler_frame. Qed.

Lemma log_sleep_frame (s : State) (cu : User) (d : Q) (q : Z) :
  social_frame s (snd (log_sleep s cu d q)).
Proof.
  unfold log_sleep, fresh_id. cbv beta iota zeta.
  set (s2 := set_sleep_logs _ _).
  assert (H2 : social_frame s s2) by (unfold social_frame; cbn; repeat split; lia).
  destruct (negb (Qle_bool 6 d)); [|destruct (Z.ltb q 5)];
    try (generalize (create_notification_social s2 (u_id cu));
         intros Hc; match goal with
         | |- context [create_notification s2 _ ?t ?m ?ty] =>
             specialize (Hc t m ty); destruct (create_notification s2 _ t m ty)
         end; cbn in Hc |- *; eapply frame_trans; eauto).
  cbn. exact H2.
Qed.

Lemma start_fasting_frame (s : State) (cu : User) (tg now : Z) :
  social_frame s (snd (start_fasting s cu tg now)).
Proof. unfold start_fasting, fresh_id. handler_frame. Qed.

Lemma end_fasting_frame (s : State) (cu : User) (sid now : Z) :
  social_frame s (snd (end_fasting s cu sid now)).
Proof. unfold end_fasting. handler_frame. Qed.

Lemma step_frame_inv (s s' : State) : Inv s -> social_frame s s' -> Inv s'.
Proof.
  unfold Inv. intros H [Hp [Hl [Hc Hn]]]. rewrite Hp, Hl, Hc.
  eapply social_inv_mono; eauto.
Qed.

Lemma no_like_yet (s : State) (pid uid : Z) :
  find_like s pid uid = None ->
  forall l, In l (post_likes s) -> ~ (l_user_id l = uid /\ l_post_id l = pid).
Proof.
  unfold find_like. intros El l Hl [E1 E2].
  pose proof (find_none _ _ El l Hl) as Hf. cbn in Hf.
  rewrite E1, E2, !Z.eqb_refl in Hf. discriminate Hf.
Qed.

Lemma like_post_inv (s : State) (cu : User) (pid : Z) :
  Inv s -> Inv (snd (like_post s cu pid)).
Proof.
  intros H. unfold like_post.
  destruct (find_post s pid) as [post|] eqn:Ep; [|exact H].
  apply find_some in Ep as [Hin Hpid]. apply Z.eqb_eq in Hpid.
  destruct (find_like s pid (u_id cu)) as [l|] eqn:El.
  - pose proof El as El'. unfold find_like in El'.
    apply find_some in El' as [Hl Hlp]. apply andb_true_iff in Hlp as [Hlp _].
    apply Z.eqb_eq in Hlp.
    cbn [snd]. unfold Inv. cbn. apply social_inv_del_like; auto.
  - pose proof (no_like_yet s pid (u_id cu) El) as Hnone.
    unfold fresh_id. cbv beta iota zeta.
    destruct (negb (Z.eqb (p_user_id post) (u_id cu))).
    + match goal with
      | |- context [create_notification ?s3 ?u ?t ?m ?ty] =>
          assert (H3 : Inv s3);
          [| generalize (create_notification_social s3 u t m ty);
             destruct (create_notification s3 u t m ty); cbn [snd res_state]; intros Hf;
             [eapply step_frame_inv; eauto | exact H]]
      end.
      unfold Inv; cbn. eapply social_inv_add_like; eauto.
    + cbn [snd]. unfold Inv; cbn. eapply social_inv_add_like; eauto.
Qed.

Lemma add_comment_inv (s : State) (cu : User) (pid : Z) (c : string) :
  Inv s -> Inv (snd (add_comment s cu pid c)).
Proof.
  intros H. unfold add_comment.
  destruct (find_post s pid) as [post|] eqn:Ep; [|exact H].
  apply find_some in Ep as [Hin Hpid]. apply Z.eqb_eq in Hpid.
  unfold fresh_id. cbv beta iota zeta.
  destruct (negb (Z.eqb (p_user_id post) (u_id cu))).
  - match goal with
    | |- context [create_notification ?s3 ?u ?t ?m ?ty] =>
        assert (H3 : Inv s3);
        [| generalize (create_notification_social s3 u t m ty);
           destruct (create_notification s3 u t m ty); cbn [snd res_state]; intros Hf;
           eapply step_frame_inv; eauto]
    end.
    unfold Inv; cbn. eapply social_inv_add_comment; eauto.
  - cbn [snd]. unfold Inv; cbn. eapply social_inv_add_comment; eauto.
Qed.

Lemma create_post_inv (s : State) (cu : User) (c : string) :
  Inv s -> Inv (snd (create_post s cu c)).
Proof. intros H. unfold create_post, Inv. cbn. apply social_inv_add_post, H. Qed.

Lemma step_inv (s s' : State) : Inv s -> step s s' -> Inv s'.
Proof.
  intros H Hs. destruct Hs.
  - apply create_post_inv, H.
  - apply like_post_inv, H.
  - apply add_comment_inv, H.
  - eapply step_frame_inv; [exact H | apply friends_post_frame].
  - eapply step_frame_inv; [exact H | apply remove_friend_frame].
  - eapply step_frame_inv; [exact H | apply handle_send_message_frame].
  - eapply step_frame_inv; [exact H | apply log_water_frame].
  - eapply step_frame_inv; [exact H | apply log_sleep_frame].
  - eapply step_frame_inv; [exact H | apply start_fasting_frame].
  - eapply step_frame_inv; [exact H | apply end_fasting_frame].
  - eapply step_frame_inv; [exact H | apply remind_all_frame].
  - eapply step_frame_inv; [exact H|].
    destruct cu; unfold social_frame; cbn; repeat split; lia.
  - eapply step_frame_inv; [exact H | unfold social_frame; cbn; repeat split; lia].
Qed.

Lemma reachable_inv (s : State) : reachable s -> Inv s.
Proof.
  induction 1 as [us bad|s s' _ IH Hs].
  - unfold Inv, social_inv. cbn.
    split; [|split; [|split; [|split; [|split]]]]; try (intros ? []); constructor.
  - eapply step_inv; eauto.
Qed.

Lemma find_map_post_upd (pid q : Z) (g : Post -> Post) (ps : list Post) :
  (forall p, p_id (g p) = p_id p) ->
  find (fun p => Z.eqb (p_id p) q) (map (post_upd pid g) ps)
  = option_map (post_upd pid g) (find (fun p => Z.eqb (p_id p) q) ps).
Proof.
  intros Hg. induction ps as [|a ps IH]; [reflexivity|].
  cbn. replace (p_id (post_upd pid g a)) with (p_id a)
    by (unfold post_upd; destruct (Z.eqb (p_id a) pid); [rewrite Hg|]; reflexivity).
  destruct (Z.eqb (p_id a) q); [reflexivity | exact IH].
Qed.






Lemma NoDup_map_inj (A B : Type) (f : A -> B) (l : list A) (a b : A) :
  NoDup (map f l) -> In a l -> In b l -> f a = f b -> a = b.
Proof.
  induction l as [|x l IH]; cbn; [tauto|].
  intros Hnd Ha Hb Hab. inversion Hnd as [|? ? Hx Hnd']; subst.
  destruct Ha as [<-|Ha], Hb as [<-|Hb]; auto.
  - exfalso. apply Hx. rewrite Hab. apply in_map, Hb.
  - exfalso. apply Hx. rewrite <- Hab. apply in_map, Ha.
Qed.

Lemma find_none_intro (A : Type) (f : A -> bool) (l : list A) :
  (forall x, In x l -> f x = false) -> find f l = None.
Proof.
  induction l as [|a l IH]; intros H; [reflexivity|].
  cbn. rewrite (H a (or_introl eq_refl)). apply IH. intros x Hx. apply H. right. exact Hx.
Qed.


(** ** C5 *)




(** ** C9 *)

(** C9 (code bug): the counters only match the rows while requests run one
    at a time.  From Alice's fresh post (counters 0 and no rows, so they
    match), a like by Bob and a like by Alice that overlap both load
    [likes_count = 0] and both write 1: the post has two like rows and
    [likes_count] 1.  Two overlapping comments likewise leave two comment
    rows and [comments_count] 1. *)
Theorem overlapping_likes_break_counters :
  treach post_state
  /\ counters_ok (posts post_state) (post_likes post_state) (comments post_state)
  /\ treach like_race_state
  /\ like_rows (post_likes like_race_state) 1 = 2%nat
  /\ find_post like_race_state 1 = Some (mkPost 1 1 "hi" 1 0)
  /\ ~ counters_ok (posts like_race_state) (post_likes like_race_state) (comments like_race_state)
  /\ treach comment_race_state
  /\ comment_rows (comments comment_race_state) 1 = 2%nat
  /\ find_post comment_race_state 1 = Some (mkPost 1 1 "hi" 0 1)
  /\ ~ counters_ok (posts comment_race_state) (post_likes comment_race_state)
         (comments comment_race_state).
Proof.
  assert (Hp : treach post_state).
  { unfold post_state. eapply treach_serial; [apply treach_init | apply st_create_post]. }
  split; [exact Hp|]. split.
  { intros p Hin. vm_compute in Hin. destruct Hin as [<-|[]]. split; reflexivity. }
  split; [apply treach_overlap, Hp|].
  split; [vm_compute; reflexivity|]. split; [vm_compute; reflexivity|].
  split.
  { intros H. destruct (H (mkPost 1 1 "hi" 1 0)) as [H1 _].
    - vm_compute. left. reflexivity.
    - vm_compute in H1. discriminate H1. }
  split; [apply treach_overlap, Hp|].
  split; [vm_compute; reflexivity|]. split; [vm_compute; reflexivity|].
  intros H. destruct (H (mkPost 1 1 "hi" 0 1)) as [_ H1].
  - vm_compute. left. reflexivity.
  - vm_compute in H1. discriminate H1.
Qed.

(** ** C8 *)

(** C8 (code bug): a user who sends a direct message to themselves gets a
    ["New Message"] notification row of their own, unlike the like and
    comment paths, which skip the notification when actor and owner agree. *)
Theorem self_message_notifies_sender (s : State) (cu : User) (c : string) :
  u_id cu <> 0 -> ~ In (u_id cu) (bad_users s) ->
  rows_of (u_id cu) (notifications (handle_send_message s cu (u_id cu) c))
  = (rows_of (u_id cu) (notifications s)
     ++ [mkNotification (next_id s + 1) (u_id cu) "New Message"
           (String.append (username cu) " sent you a message") "social" false])%list.
Proof.
  intros H0 Hb. unfold handle_send_message, fresh_id. cbv beta iota zeta.
  rewrite create_notification_ok by (cbn; assumption).
  cbn [res_state notifications set_trace set_messages set_next_id next_id].
  unfold rows_of. rewrite filter_app. cbn [filter n_user_id]. rewrite Z.eqb_refl.
  reflexivity.
Qed.

Lemma self_message_notifies_sender_witness :
  rows_of 1 (notifications (handle_send_message (empty_state [alice] []) alice 1 "hello"))
  = [mkNotification 2 1 "New Message" "alice sent you a message" "social" false].
Proof.
  apply (self_message_notifies_sender (empty_state [alice] []) alice "hello").
  - discriminate.
  - cbn. tauto.
Defined.

(** ** C10 *)

Lemma notified_row_intro (s s0 : State) (uid : Z) (ti m ty : string) :
  uid <> 0 -> ~ In uid (bad_users s0) -> notifications s0 = notifications s ->
  (exists mid, trace s0 = (trace s ++ mid)%list) ->
  exists s', create_notification s0 uid ti m ty = Ok s' /\ notified_row s s' uid ty.
Proof.
  intros H0 Hb Hn [mid Ht]. rewrite (create_notification_ok s0 uid ti m ty H0 Hb).
  eexists; split; [reflexivity|].
  exists (mkNotification (next_id s0) uid ti m ty false), mid. cbn.
  rewrite Hn, Ht, <- !app_assoc. repeat split.
Qed.

(** Run the notification call of the goal through [notified_row_intro]. *)
Ltac push_tac :=
  match goal with
  | |- notified_row ?s ?x _ _ =>
      match x with
      | context [create_notification ?s0 ?u ?t ?m ?ty] =>
          let s' := fresh "s'" in let E := fresh "E" in let Hn := fresh "Hn" in
          destruct (notified_row_intro s s0 u t m ty ltac:(assumption)
                      ltac:(cbn; assumption) eq_refl
                      ltac:(first [ exists []; rewrite app_nil_r; reflexivity
                                  | eexists; reflexivity ]))
            as [s' [E Hn]];
          rewrite E; exact Hn
      end
  end.

Ltac neq_false H :=
  rewrite (proj2 (Z.eqb_neq _ _) H); cbn [negb].

(** C10: the master [notifications_enabled] flag is read only by the
    hourly reminder evaluator.  The water goal, the sleep alerts, the start
    and the end of a fast, a friend request and its acceptance, a like, a
    comment and a direct message all add a notification row for their
    recipient and push it to the recipient's room, also when the
    recipient's flag is false (for any recipient id other than 0 whose
    write succeeds). *)
Theorem flag_only_gates_reminders :
  (forall s cu amt today,
     notifications_enabled cu = false -> u_id cu <> 0 -> ~ In (u_id cu) (bad_users s) ->
     Qle_bool 2500 (water_total (water_logs s ++ [mkWaterLog (next_id s) (u_id cu) amt today])%list
                      (u_id cu) today) = true ->
     notified_row s (snd (log_water s cu amt today)) (u_id cu) "water")
  /\ (forall s cu dur qual,
     notifications_enabled cu = false -> u_id cu <> 0 -> ~ In (u_id cu) (bad_users s) ->
     Qle_bool 6 dur = false \/ qual < 5 ->
     notified_row s (snd (log_sleep s cu dur qual)) (u_id cu) "sleep")
  /\ (forall s cu target now,
     notifications_enabled cu = false -> u_id cu <> 0 -> ~ In (u_id cu) (bad_users s) ->
     find (fun f => Z.eqb (fs_user_id f) (u_id cu) && negb (completed f))
          (fasting_sessions s) = None ->
     notified_row s (snd (start_fasting s cu target now)) (u_id cu) "fasting")
  /\ (forall s cu sid now f,
     notifications_enabled cu = false -> u_id cu <> 0 -> ~ In (u_id cu) (bad_users s) ->
     find (fun f => Z.eqb (fs_id f) sid) (fasting_sessions s) = Some f ->
     fs_user_id f = u_id cu ->
     notified_row s (snd (end_fasting s cu sid now)) (u_id cu) "fasting")
  /\ (forall s cu name fid fu,
     find_user_by_username s name = Some fu -> notifications_enabled fu = false ->
     u_id fu <> 0 -> ~ In (u_id fu) (bad_users s) -> u_id fu <> u_id cu ->
     friendship_between s (u_id cu) (u_id fu) = None ->
     notified_row s (snd (friends_post s cu "send" name fid)) (u_id fu) "social")
  /\ (forall s cu name fid f ru,
     find_friendship s fid = Some f -> f_friend_id f = u_id cu ->
     In ru (users s) -> u_id ru = f_user_id f -> notifications_enabled ru = false ->
     f_user_id f <> 0 -> ~ In (f_user_id f) (bad_users s) ->
     notified_row s (snd (friends_post s cu "accept" name fid)) (f_user_id f) "social")
  /\ (forall s cu pid post owner,
     find_post s pid = Some post -> find_like s pid (u_id cu) = None ->
     p_user_id post <> u_id cu ->
     In owner (users s) -> u_id owner = p_user_id post -> notifications_enabled owner = false ->
     p_user_id post <> 0 -> ~ In (p_user_id post) (bad_users s) ->
     notified_row s (snd (like_post s cu pid)) (p_user_id post) "social")
  /\ (forall s cu pid c post owner,
     find_post s pid = Some post -> p_user_id post <> u_id cu ->
     In owner (users s) -> u_id owner = p_user_id post -> notifications_enabled owner = false ->
     p_user_id post <> 0 -> ~ In (p_user_id post) (bad_users s) ->
     notified_row s (snd (add_comment s cu pid c)) (p_user_id post) "social")
  /\ (forall s cu rid c ru,
     In ru (users s) -> u_id ru = rid -> notifications_enabled ru = false ->
     rid <> 0 -> ~ In rid (bad_users s) ->
     notified_row s (handle_send_message s cu rid c) rid "social").
Proof.
  split; [|split; [|split; [|split; [|split; [|split; [|split; [|split]]]]]]].
  - intros s cu amt today _ H0 Hb Hw. unfold log_water, fresh_id. cbv beta iota zeta.
    match goal with
    | |- context [Qle_bool 2500 ?b] => rewrite (Hw : Qle_bool 2500 b = true)
    end.
    push_tac.
  - intros s cu dur qual _ H0 Hb Hq. unfold log_sleep, fresh_id. cbv beta iota zeta.
    destruct (Qle_bool 6 dur) eqn:E6; cbn [negb].
    + destruct Hq as [Hq|Hq]; [discriminate Hq|].
      rewrite (proj2 (Z.ltb_lt _ _) Hq). push_tac.
    + push_tac.
  - intros s cu target now _ H0 Hb Hf. unfold start_fasting. rewrite Hf.
    unfold fresh_id. cbv beta iota zeta. push_tac.
  - intros s cu sid now f _ H0 Hb Hf Ho. unfold end_fasting. rewrite Hf, Ho, Z.eqb_refl.
    cbn [negb]. cbv beta iota zeta. push_tac.
  - intros s cu name fid fu Hu _ H0 Hb Hne Hfb.
    change (friends_post s cu "send" name fid) with (send_request s cu name).
    unfold send_request. rewrite Hu. rewrite (proj2 (Z.eqb_neq _ _) Hne), Hfb.
    unfold fresh_id. cbv beta iota zeta. push_tac.
  - intros s cu name fid f ru Hf Hfr _ _ _ H0 Hb.
    change (friends_post s cu "accept" name fid) with (respond s cu fid true).
    unfold respond. rewrite Hf, Hfr, Z.eqb_refl. cbn [negb]. cbv beta iota zeta.
    push_tac.
  - intros s cu pid post owner Ep El Hne _ _ _ H0 Hb. unfold like_post. rewrite Ep, El.
    unfold fresh_id. cbv beta iota zeta. neq_false Hne. push_tac.
  - intros s cu pid c post owner Ep Hne _ _ _ H0 Hb. unfold add_comment. rewrite Ep.
    unfold fresh_id. cbv beta iota zeta. neq_false Hne. push_tac.
  - intros s cu rid c ru _ _ _ H0 Hb. unfold handle_send_message, fresh_id.
    cbv beta iota zeta. push_tac.
Qed.

Lemma flag_only_gates_reminders_witness :
  notified_row off_state (snd (log_water off_state user_a 2500%Q 0)) 1 "water"
  /\ notified_row off_state (snd (log_sleep off_state user_a 5%Q 8)) 1 "sleep"
  /\ notified_row off_state (snd (start_fasting off_state user_a 16 0)) 1 "fasting"
  /\ notified_row off_fast_state (snd (end_fasting off_fast_state user_a 1 57600)) 1 "fasting"
  /\ notified_row off_state (snd (friends_post off_state bob "send" "alice" 0)) 1 "social"
  /\ notified_row off_request_state
       (snd (friends_post off_request_state bob "accept" "" 1)) 1 "social"
  /\ notified_row off_post_state (snd (like_post off_post_state bob 1)) 1 "social"
  /\ notified_row off_post_state (snd (add_comment off_post_state bob 1 "nice")) 1 "social"
  /\ notified_row off_state (handle_send_message off_state bob 1 "hello") 1 "social".
Proof.
  destruct flag_only_gates_reminders as (Hw & Hs & Hfs & Hfe & Hsr & Hac & Hl & Hc & Hm).
  split; [|split; [|split; [|split; [|split; [|split; [|split; [|split]]]]]]].
  - apply (Hw off_state user_a 2500%Q 0); [reflexivity | discriminate | cbn; tauto | reflexivity].
  - apply (Hs off_state user_a 5%Q 8); [reflexivity | discriminate | cbn; tauto | left; reflexivity].
  - apply (Hfs off_state user_a 16 0); [reflexivity | discriminate | cbn; tauto | reflexivity].
  - apply (Hfe off_fast_state user_a 1 57600 (mkFastingSession 1 1 0 None 16 false));
      [reflexivity | discriminate | vm_compute; tauto | vm_compute; reflexivity | reflexivity].
  - apply (Hsr off_state bob "alice" 0 user_a);
      [vm_compute; reflexivity | reflexivity | discriminate | cbn; tauto | discriminate
      | reflexivity].
  - apply (Hac off_request_state bob "" 1 (mkFriendship 1 1 2 "pending") user_a);
      [vm_compute; reflexivity | reflexivity | vm_compute; tauto | reflexivity | reflexivity
      | discriminate | vm_compute; tauto].
  - apply (Hl off_post_state bob 1 (mkPost 1 1 "hi" 0 0) user_a);
      [vm_compute; reflexivity | vm_compute; reflexivity | discriminate | vm_compute; tauto
      | reflexivity | reflexivity | discriminate | vm_compute; tauto].
  - apply (Hc off_post_state bob 1 "nice" (mkPost 1 1 "hi" 0 0) user_a);
      [vm_compute; reflexivity | discriminate | vm_compute; tauto
      | reflexivity | reflexivity | discriminate | vm_compute; tauto].
  - apply (Hm off_state bob 1 "hello" user_a);
      [vm_compute; tauto | reflexivity | reflexivity | discriminate | vm_compute; tauto].
Defined.

(** * Further properties of the routes *)

(** ** Shared lemmas *)


Lemma filter_map_fix (A : Type) (P : A -> bool) (f : A -> A) (l : list A) :
  (forall a, In a l -> P (f a) = P a) ->
  (forall a, In a l -> P a = true -> f a = a) ->
  filter P (map f l) = filter P l.
Proof.
  induction l as [|a l IH]; intros H1 H2; [reflexivity|]. cbn.
  rewrite (H1 a (or_introl eq_refl)).
  destruct (P a) eqn:E.
  - rewrite (H2 a (or_introl eq_refl) E). f_equal.
    apply IH; intros; [apply H1 | apply H2]; auto; right; assumption.
  - apply IH; intros; [apply H1 | apply H2]; auto; right; assumption.
Qed.

Lemma map_mark_read_idem (g : Notification -> bool) (ns : list Notification) :
  map mark_read (map (fun n => if g n then mark_read n else n) ns) = map mark_read ns.
Proof.
  induction ns as [|n ns IH]; [reflexivity|]. cbn. rewrite IH.
  destruct (g n); reflexivity.
Qed.

(** ** PUT /api/notifications *)

(** Marking all as read leaves the caller with no unread notification: the
    unread count is 0 and the unread-only listing is empty; rows keep
    everything but the read flag. *)
Theorem mark_all_clears_unread (s : State) (cu : User) (notification_id : Z) (limit : nat) :
  unread_count (snd (update_notifications s cu notification_id true)) (u_id cu) = 0%nat
  /\ list_notifications (snd (update_notifications s cu notification_id true))
       (u_id cu) true limit = []
  /\ map mark_read (notifications (snd (update_notifications s cu notification_id true)))
     = map mark_read (notifications s).
Proof.
  assert (Hf : filter (fun n => Z.eqb (n_user_id n) (u_id cu) && negb (n_is_read n))
                 (map (fun n => if Z.eqb (n_user_id n) (u_id cu) && negb (n_is_read n)
                                then mark_read n else n) (notifications s)) = []).
  { induction (notifications s) as [|n ns IH]; [reflexivity|]. cbn.
    destruct (Z.eqb (n_user_id n) (u_id cu) && negb (n_is_read n)) eqn:E; cbn.
    - rewrite andb_false_r. exact IH.
    - rewrite E. exact IH. }
  unfold update_notifications, unread_count, list_notifications. cbn [snd notifications set_notifications].
  split; [|split].
  - rewrite Hf. reflexivity.
  - rewrite Hf. destruct limit; reflexivity.
  - apply map_mark_read_idem.
Qed.

(** Any PUT to /api/notifications answers 200 and, when notification ids
    are unique (they are the primary key), leaves the rows of every other
    user as they are; no row is added or removed and only read flags
    change. *)
Theorem update_notifications_own_rows_only (s : State) (cu : User)
    (notification_id : Z) (mark_all : bool) :
  NoDup (map n_id (notifications s)) ->
  fst (update_notifications s cu notification_id mark_all) = ok_resp []
  /\ map mark_read (notifications (snd (update_notifications s cu notification_id mark_all)))
     = map mark_read (notifications s)
  /\ (forall v, v <> u_id cu ->
        rows_of v (notifications (snd (update_notifications s cu notification_id mark_all)))
        = rows_of v (notifications s)).
Proof.
  intros Hnd. unfold update_notifications.
  destruct mark_all.
  - cbn [fst snd notifications set_notifications]. split; [reflexivity|split].
    + apply map_mark_read_idem.
    + intros v Hv. unfold rows_of. apply filter_map_fix.
      * intros a _. destruct (Z.eqb (n_user_id a) (u_id cu) && negb (n_is_read a)); reflexivity.
      * intros a _ Ha. apply Z.eqb_eq in Ha.
        destruct (Z.eqb (n_user_id a) (u_id cu)) eqn:E; [|reflexivity].
        apply Z.eqb_eq in E. congruence.
  - destruct (negb (Z.eqb notification_id 0)); [|repeat split].
    destruct (find (fun n => Z.eqb (n_id n) notification_id) (notifications s))
      as [n|] eqn:Ef; [|repeat split].
    destruct (Z.eqb (n_user_id n) (u_id cu)) eqn:Eo; [|repeat split].
    apply Z.eqb_eq in Eo. apply find_some in Ef as [Hn _].
    cbn [fst snd notifications set_notifications]. split; [reflexivity|split].
    + apply map_mark_read_idem.
    + intros v Hv. unfold rows_of. apply filter_map_fix.
      * intros a _. destruct (Z.eqb (n_id a) (n_id n)); reflexivity.
      * intros a Ha Hav. apply Z.eqb_eq in Hav.
        destruct (Z.eqb (n_id a) (n_id n)) eqn:E; [|reflexivity].
        apply Z.eqb_eq in E.
        assert (a = n) by (apply (NoDup_map_inj _ _ _ _ a n Hnd Ha Hn E)).
        subst a. congruence.
Qed.

Lemma update_notifications_own_rows_only_witness :
  NoDup (map n_id (notifications liked_state))
  /\ fst (update_notifications liked_state bob 2 false) = ok_resp []
  /\ map mark_read (notifications (snd (update_notifications liked_state bob 2 false)))
     = map mark_read (notifications liked_state)
  /\ (forall v, v <> u_id bob ->
        rows_of v (notifications (snd (update_notifications liked_state bob 2 false)))
        = rows_of v (notifications liked_state)).
Proof.
  assert (H : NoDup (map n_id (notifications liked_state)))
    by (vm_compute; repeat constructor; cbn; intuition discriminate).
  split; [exact H|]. apply update_notifications_own_rows_only. exact H.
Defined.

(** Marking one notification: by its owner, every row with that id is read
    afterwards and the other rows are unchanged; by anyone else, nothing
    changes. *)
Theorem mark_one_notification (s : State) (cu : User) (notification_id : Z)
    (n : Notification) :
  notification_id <> 0 ->
  find (fun m => Z.eqb (n_id m) notification_id) (notifications s) = Some n ->
  (n_user_id n = u_id cu ->
     (forall m, In m (notifications (snd (update_notifications s cu notification_id false))) ->
        n_id m = notification_id -> n_is_read m = true)
     /\ filter (fun m => negb (Z.eqb (n_id m) notification_id))
          (notifications (snd (update_notifications s cu notification_id false)))
        = filter (fun m => negb (Z.eqb (n_id m) notification_id)) (notifications s))
  /\ (n_user_id n <> u_id cu -> snd (update_notifications s cu notification_id false) = s).
Proof.
  intros H0 Ef. pose proof Ef as Ef'. apply find_some in Ef' as [_ Hid].
  apply Z.eqb_eq in Hid. unfold update_notifications.
  rewrite (proj2 (Z.eqb_neq _ _) H0). cbn [negb]. rewrite Ef. split.
  - intros Ho. rewrite (proj2 (Z.eqb_eq _ _) Ho). cbn [snd notifications set_notifications].
    rewrite Hid. split.
    + intros m Hm Hmid. apply in_map_iff in Hm as [m0 [<- Hm0]].
      destruct (Z.eqb (n_id m0) notification_id) eqn:E; [reflexivity|].
      apply Z.eqb_neq in E. congruence.
    + apply filter_map_fix.
      * intros a _. destruct (Z.eqb (n_id a) notification_id) eqn:E; cbn; rewrite ?E; reflexivity.
      * intros a _ Ha. destruct (Z.eqb (n_id a) notification_id); [discriminate Ha|reflexivity].
  - intros Ho. rewrite (proj2 (Z.eqb_neq _ _) Ho). reflexivity.
Qed.

Lemma mark_one_notification_witness :
  find (fun m => Z.eqb (n_id m) 3) (notifications liked_state)
    = Some (mkNotification 3 1 "New Like" "bob liked your post!" "social" false)
  /\ ((1 = u_id alice ->
       (forall m, In m (notifications (snd (update_notifications liked_state alice 3 false))) ->
          n_id m = 3 -> n_is_read m = true)
       /\ filter (fun m => negb (Z.eqb (n_id m) 3))
            (notifications (snd (update_notifications liked_state alice 3 false)))
          = filter (fun m => negb (Z.eqb (n_id m) 3)) (notifications liked_state))
      /\ (1 <> u_id alice -> snd (update_notifications liked_state alice 3 false) = liked_state)).
Proof.
  assert (H : find (fun m => Z.eqb (n_id m) 3) (notifications liked_state)
              = Some (mkNotification 3 1 "New Like" "bob liked your post!" "social" false))
    by (vm_compute; reflexivity).
  split; [exact H|].
  exact (mark_one_notification liked_state alice 3 _ ltac:(discriminate) H).
Defined.

(** ** GET, POST and DELETE /api/social/friends *)

Lemma create_notification_friendships (s : State) (uid : Z) (ti m ty : string) :
  friendships (res_state (create_notification s uid ti m ty)) = friendships s.
Proof. apply (create_notification_cn_frame s uid ti m ty). Qed.

Lemma find_user_id (s : State) (uid : Z) (u : User) :
  find_user s uid = Some u -> u_id u = uid.
Proof. unfold find_user. intros H. apply find_some in H as [_ H]. apply Z.eqb_eq, H. Qed.

(** The entries of [friend_entries], one per friendship, in order. *)
Lemma friend_entries_spec (s : State) (c : Z) (fs : list Friendship)
    (es : list FriendEntry) :
  friend_entries s c fs = Some es ->
  (forall f, In f fs ->
     exists e, In e es /\ fe_friendship_id e = f_id f /\ fe_status e = f_status f
       /\ (if Z.eqb (f_user_id f) c
           then fe_id e = f_friend_id f /\ fe_is_requester e = true
           else fe_id e = f_user_id f /\ fe_is_requester e = false))
  /\ (forall e, In e es ->
       exists f, In f fs /\ fe_friendship_id e = f_id f /\ fe_status e = f_status f).
Proof.
  revert es. induction fs as [|f fs IH]; intros es H.
  - cbn in H. injection H as <-. split; intros ? [].
  - cbn [friend_entries] in H.
    destruct (Z.eqb (f_user_id f) c) eqn:Ec; cbv beta iota in H;
    (destruct (find_user s _) as [u|] eqn:Eu; [|discriminate H];
     destruct (friend_entries s c fs) as [es'|]; [|discriminate H];
     injection H as <-; apply find_user_id in Eu;
     destruct (IH es' eq_refl) as [IH1 IH2]; split;
     [ intros g [<-|Hg];
       [ eexists; split; [left; reflexivity|]; rewrite Ec; cbn; repeat split; auto
       | destruct (IH1 g Hg) as [e [He1 He2]]; exists e; split; [right; exact He1 | exact He2] ]
     | intros e [<-|He];
       [ exists f; cbn; repeat split; auto
       | destruct (IH2 e He) as [g [Hg1 Hg2]]; exists g; split; [right; exact Hg1 | exact Hg2] ] ]).
Qed.

Lemma friends_get_spec (s : State) (cu : User) (st : string)
    (es : list FriendEntry) :
  friends_get s cu st = Some es ->
  (forall f, In f (friendships s) -> f_status f = st ->
     (f_user_id f = u_id cu ->
        exists e, In e es /\ fe_friendship_id e = f_id f
          /\ fe_id e = f_friend_id f /\ fe_is_requester e = true)
     /\ (f_friend_id f = u_id cu -> f_user_id f <> u_id cu ->
        exists e, In e es /\ fe_friendship_id e = f_id f
          /\ fe_id e = f_user_id f /\ fe_is_requester e = false))
  /\ (forall e, In e es ->
       exists f, In f (friendships s) /\ f_id f = fe_friendship_id e /\ f_status f = st
         /\ (f_user_id f = u_id cu \/ f_friend_id f = u_id cu)).
Proof.
  unfold friends_get. intros H.
  destruct (friend_entries_spec _ _ _ _ H) as [H1 H2].
  set (P := fun f => (Z.eqb (f_user_id f) (u_id cu) || Z.eqb (f_friend_id f) (u_id cu))
                     && String.eqb (f_status f) st).
  assert (Hin : forall f, In f (friendships s) -> f_status f = st ->
                  (f_user_id f = u_id cu \/ f_friend_id f = u_id cu) ->
                  In f (filter P (friendships s))).
  { intros f Hf Hst Hc. apply filter_In. split; [exact Hf|]. unfold P.
    rewrite Hst, String.eqb_refl, andb_true_r. apply orb_true_iff.
    destruct Hc as [Hc|Hc]; [left|right]; apply Z.eqb_eq, Hc. }
  split.
  - intros f Hf Hst. split.
    + intros Hu. destruct (H1 f (Hin f Hf Hst (or_introl Hu))) as [e (He & Hid & _ & Hr)].
      rewrite (proj2 (Z.eqb_eq _ _) Hu) in Hr. destruct Hr as [Hr1 Hr2].
      exists e. auto.
    + intros Hfr Hu. destruct (H1 f (Hin f Hf Hst (or_intror Hfr))) as [e (He & Hid & _ & Hr)].
      rewrite (proj2 (Z.eqb_neq _ _) Hu) in Hr. destruct Hr as [Hr1 Hr2].
      exists e. auto.
  - intros e He. destruct (H2 e He) as [f [Hf [Hid Hst]]].
    apply filter_In in Hf as [Hf Hp]. unfold P in Hp. apply andb_true_iff in Hp as [Hp Hs].
    apply String.eqb_eq in Hs. exists f. split; [exact Hf|]. split; [congruence|].
    split; [congruence|]. apply orb_true_iff in Hp as [Hp|Hp]; apply Z.eqb_eq in Hp; auto.
Qed.

(** GET /api/social/friends?status=<st> lists exactly the caller's
    friendships with that status: each one, seen from the caller (the other
    party, and whether the caller sent the request), and nothing else. *)
Theorem friends_get_lists_own_friendships (s : State) (cu : User) (st : string)
    (es : list FriendEntry) :
  friends_get s cu st = Some es ->
  (forall f, In f (friendships s) -> f_status f = st ->
     (f_user_id f = u_id cu ->
        exists e, In e es /\ fe_friendship_id e = f_id f
          /\ fe_id e = f_friend_id f /\ fe_is_requester e = true)
     /\ (f_friend_id f = u_id cu -> f_user_id f <> u_id cu ->
        exists e, In e es /\ fe_friendship_id e = f_id f
          /\ fe_id e = f_user_id f /\ fe_is_requester e = false))
  /\ (forall e, In e es ->
       exists f, In f (friendships s) /\ f_id f = fe_friendship_id e /\ f_status f = st
         /\ (f_user_id f = u_id cu \/ f_friend_id f = u_id cu)).
Proof. exact (friends_get_spec s cu st es). Qed.


Lemma friends_get_lists_own_friendships_witness :
  friends_get off_request_state bob "pending"
    = Some [mkFriendEntry 1 "alice" 1 "pending" false]
  /\ (forall f, In f (friendships off_request_state) -> f_status f = "pending" ->
       (f_user_id f = u_id bob ->
          exists e, In e [mkFriendEntry 1 "alice" 1 "pending" false]
            /\ fe_friendship_id e = f_id f /\ fe_id e = f_friend_id f /\ fe_is_requester e = true)
       /\ (f_friend_id f = u_id bob -> f_user_id f <> u_id bob ->
          exists e, In e [mkFriendEntry 1 "alice" 1 "pending" false]
            /\ fe_friendship_id e = f_id f /\ fe_id e = f_user_id f
            /\ fe_is_requester e = false))
  /\ (forall e, In e [mkFriendEntry 1 "alice" 1 "pending" false] ->
       exists f, In f (friendships off_request_state) /\ f_id f = fe_friendship_id e
         /\ f_status f = "pending" /\ (f_user_id f = u_id bob \/ f_friend_id f = u_id bob)).
Proof.
  assert (H : friends_get off_request_state bob "pending"
              = Some [mkFriendEntry 1 "alice" 1 "pending" false]) by (vm_compute; reflexivity).
  split; [exact H|]. exact (friends_get_lists_own_friendships _ _ _ _ H).
Defined.

(** A friend request that passes the checks of [action == 'send'] stores a
    pending row from the sender to the recipient (also when notifying the
    recipient fails), and the recipient's pending listing then shows it as
    a request received from the sender. *)
Theorem send_request_shows_as_pending (s : State) (cu fu : User) (name : string) (fid : Z) :
  find_user_by_username s name = Some fu -> u_id fu <> u_id cu ->
  friendship_between s (u_id cu) (u_id fu) = None ->
  friendships (snd (friends_post s cu "send" name fid))
    = (friendships s ++ [mkFriendship (next_id s) (u_id cu) (u_id fu) "pending"])%list
  /\ (forall es, friends_get (snd (friends_post s cu "send" name fid)) fu "pending" = Some es ->
        exists e, In e es /\ fe_friendship_id e = next_id s /\ fe_id e = u_id cu
          /\ fe_is_requester e = false).
Proof.
  intros Hu Hne Hb.
  assert (Hf : friendships (snd (friends_post s cu "send" name fid))
               = (friendships s ++ [mkFriendship (next_id s) (u_id cu) (u_id fu) "pending"])%list).
  { change (friends_post s cu "send" name fid) with (send_request s cu name).
    unfold send_request. rewrite Hu, (proj2 (Z.eqb_neq _ _) Hne), Hb. unfold fresh_id.
    cbv beta iota zeta.
    match goal with
    | |- context [create_notification ?s0 ?u ?t ?m ?ty] =>
        pose proof (create_notification_friendships s0 u t m ty) as Hc;
        destruct (create_notification s0 u t m ty); exact Hc
    end. }
  split; [exact Hf|]. intros es Hes.
  destruct (friends_get_spec _ _ _ _ Hes) as [H1 _].
  destruct (H1 (mkFriendship (next_id s) (u_id cu) (u_id fu) "pending")) as [_ H2].
  - rewrite Hf. apply in_or_app. right. left. reflexivity.
  - reflexivity.
  - destruct (H2 eq_refl (fun E => Hne (eq_sym E))) as [e He]. exists e. exact He.
Qed.

Lemma send_request_shows_as_pending_witness :
  find_user_by_username off_state "bob" = Some bob
  /\ friendships (snd (friends_post off_state user_a "send" "bob" 0))
     = [mkFriendship 1 1 2 "pending"]
  /\ (forall es, friends_get (snd (friends_post off_state user_a "send" "bob" 0)) bob "pending"
                 = Some es ->
        exists e, In e es /\ fe_friendship_id e = 1 /\ fe_id e = 1 /\ fe_is_requester e = false).
Proof.
  assert (H : find_user_by_username off_state "bob" = Some bob) by (vm_compute; reflexivity).
  split; [exact H|].
  exact (send_request_shows_as_pending off_state user_a bob "bob" 0 H
           ltac:(discriminate) ltac:(vm_compute; reflexivity)).
Defined.

(** DELETE /api/social/friends: anyone but the two parties gets 404 and
    nothing changes; a party removes exactly that friendship, which no
    friends listing shows any more. *)
Theorem remove_friend_parties_only (s : State) (cu : User) (fid : Z) (f : Friendship) :
  find_friendship s fid = Some f ->
  (f_user_id f <> u_id cu -> f_friend_id f <> u_id cu ->
     remove_friend s cu fid = (error_resp 404 "Friendship not found", s))
  /\ ((f_user_id f = u_id cu \/ f_friend_id f = u_id cu) ->
     find_friendship (snd (remove_friend s cu fid)) fid = None
     /\ (forall g, In g (friendships s) -> f_id g <> fid ->
           In g (friendships (snd (remove_friend s cu fid))))
     /\ (forall v st es, friends_get (snd (remove_friend s cu fid)) v st = Some es ->
           forall e, In e es -> fe_friendship_id e <> fid)).
Proof.
  intros Hf. pose proof Hf as Hf'. unfold find_friendship in Hf'.
  apply find_some in Hf' as [_ Hid]. apply Z.eqb_eq in Hid.
  unfold remove_friend. rewrite Hf. split.
  - intros H1 H2. rewrite (proj2 (Z.eqb_neq _ _) H1), (proj2 (Z.eqb_neq _ _) H2). reflexivity.
  - intros Hc.
    replace (negb (Z.eqb (f_user_id f) (u_id cu)) && negb (Z.eqb (f_friend_id f) (u_id cu)))
      with false
      by (destruct Hc as [Hc|Hc]; rewrite (proj2 (Z.eqb_eq _ _) Hc);
          [reflexivity | cbn [negb]; symmetry; apply andb_false_r]).
    cbn [snd]. rewrite Hid.
    assert (Hdel : forall g, In g (friendships (delete_friendship s fid)) -> f_id g <> fid).
    { intros g Hg. cbn in Hg. apply filter_In in Hg as [_ Hg].
      apply negb_true_iff, Z.eqb_neq in Hg. exact Hg. }
    split; [|split].
    + unfold find_friendship. apply find_none_intro. intros g Hg.
      apply Z.eqb_neq, Hdel, Hg.
    + intros g Hg Hgid. cbn. apply filter_In. split; [exact Hg|].
      apply negb_true_iff, Z.eqb_neq, Hgid.
    + intros v st es Hes e He.
      destruct (friends_get_spec _ _ _ _ Hes) as [_ H2].
      destruct (H2 e He) as [g [Hg [Hgid _]]]. rewrite <- Hgid. apply Hdel, Hg.
Qed.

Lemma remove_friend_parties_only_witness :
  find_friendship accepted_state 1 = Some (mkFriendship 1 1 2 "accepted")
  /\ ((1 <> u_id alice -> 2 <> u_id alice ->
       remove_friend accepted_state alice 1 = (error_resp 404 "Friendship not found", accepted_state))
      /\ ((1 = u_id alice \/ 2 = u_id alice) ->
       find_friendship (snd (remove_friend accepted_state alice 1)) 1 = None
       /\ (forall g, In g (friendships accepted_state) -> f_id g <> 1 ->
             In g (friendships (snd (remove_friend accepted_state alice 1))))
       /\ (forall v st es, friends_get (snd (remove_friend accepted_state alice 1)) v st = Some es ->
             forall e, In e es -> fe_friendship_id e <> 1))).
Proof.
  assert (H : find_friendship accepted_state 1 = Some (mkFriendship 1 1 2 "accepted"))
    by (vm_compute; reflexivity).
  split; [exact H|]. exact (remove_friend_parties_only accepted_state alice 1 _ H).
Defined.

(** ** GET /api/social/posts *)

Lemma in_firstn_l (A : Type) (n : nat) (l : list A) (x : A) : In x (firstn n l) -> In x l.
Proof. intros H. rewrite <- (firstn_skipn n l). apply in_or_app. left. exact H. Qed.

Lemma in_skipn_l (A : Type) (n : nat) (l : list A) (x : A) : In x (skipn n l) -> In x l.
Proof. intros H. rewrite <- (firstn_skipn n l). apply in_or_app. right. exact H. Qed.

Lemma feed_friend_ids_spec (s : State) (v a : Z) :
  existsb (Z.eqb a) (feed_friend_ids s v) = true <-> feed_author s v a.
Proof.
  unfold feed_friend_ids, feed_author. rewrite existsb_app. cbn [existsb].
  rewrite orb_false_r, orb_true_iff, existsb_exists, Z.eqb_eq. split.
  - intros [[x [Hx Ha]]|Ha]; [|left; exact Ha].
    apply Z.eqb_eq in Ha. subst x.
    apply in_map_iff in Hx as [f [Hfx Hf]]. apply filter_In in Hf as [Hf Hc].
    apply andb_true_iff in Hc as [Hc Hst]. apply String.eqb_eq in Hst.
    right. exists f. split; [exact Hf|]. split; [exact Hst|].
    destruct (Z.eqb (f_user_id f) v) eqn:E.
    + left. apply Z.eqb_eq in E. auto.
    + right. rewrite orb_false_l in Hc. apply Z.eqb_eq in Hc. auto.
  - intros [Ha|[f [Hf [Hst Hc]]]]; [right; exact Ha|]. left.
    exists (if Z.eqb (f_user_id f) v then f_friend_id f else f_user_id f). split.
    + apply (in_map (fun g => if Z.eqb (f_user_id g) v then f_friend_id g else f_user_id g)).
      apply filter_In. split; [exact Hf|].
      rewrite Hst, String.eqb_refl, andb_true_r.
      destruct Hc as [[H1 _]|[H1 _]]; apply orb_true_iff; [left|right]; apply Z.eqb_eq, H1.
    + apply Z.eqb_eq. destruct (Z.eqb (f_user_id f) v) eqn:E; apply Z.eqb_eq in E || apply Z.eqb_neq in E.
      * destruct Hc as [[_ H2]|[H1 H2]]; congruence.
      * destruct Hc as [[H1 _]|[_ H2]]; [congruence | auto].
Qed.

(** The feed (no [user_id]) shows only posts of the viewer and of the
    viewer's accepted friends, whatever the page; and with a page as large
    as the table every such post is shown. *)
Theorem feed_shows_friends_posts (s : State) (cu : User) (p : Post) :
  (forall limit offset, In p (posts_query s cu None limit offset) ->
     In p (posts s) /\ feed_author s (u_id cu) (p_user_id p))
  /\ (In p (posts s) -> feed_author s (u_id cu) (p_user_id p) ->
      In p (posts_query s cu None (List.length (posts s)) 0)).
Proof.
  unfold posts_query. split.
  - intros limit offset H. apply in_firstn_l, in_skipn_l in H. apply in_rev in H.
    apply filter_In in H as [Hp He]. split; [exact Hp|].
    apply feed_friend_ids_spec, He.
  - intros Hp Ha. cbn [skipn]. rewrite firstn_all2.
    + apply in_rev. rewrite rev_involutive. apply filter_In. split; [exact Hp|].
      apply feed_friend_ids_spec, Ha.
    + rewrite length_rev. apply filter_length_le.
Qed.



Lemma post_entries_length (s : State) (c : Z) (ps : list Post) (es : list PostEntry) :
  post_entries s c ps = Some es -> List.length es = List.length ps.
Proof.
  revert es. induction ps as [|p ps IH]; intros es H; cbn in H.
  - injection H as <-. reflexivity.
  - destruct (find_user s (p_user_id p)); [|discriminate H].
    destruct (post_entries s c ps) as [es'|]; [|discriminate H].
    injection H as <-. cbn. f_equal. apply IH. reflexivity.
Qed.

(** ** GET and POST /api/social/posts/<id>/comments *)

(** A comment on an existing post is stored (also when notifying the
    owner fails) and becomes the last entry of that post's comment listing;
    the listings of the other posts do not change. *)
Theorem add_comment_appends (s : State) (cu : User) (pid : Z) (c : string) (p : Post) :
  find_post s pid = Some p ->
  comments_of (snd (add_comment s cu pid c)) pid
    = (comments_of s pid ++ [mkComment (next_id s) (u_id cu) pid c])%list
  /\ (forall q, q <> pid -> comments_of (snd (add_comment s cu pid c)) q = comments_of s q).
Proof.
  intros Hp.
  assert (Hc : comments (snd (add_comment s cu pid c))
               = (comments s ++ [mkComment (next_id s) (u_id cu) pid c])%list).
  { unfold add_comment. rewrite Hp. unfold fresh_id. cbv beta iota zeta.
    destruct (negb (Z.eqb (p_user_id p) (u_id cu))); [|reflexivity].
    match goal with
    | |- context [create_notification ?s0 ?u ?t ?m ?ty] =>
        pose proof (create_notification_cn_frame s0 u t m ty) as (_ & _ & _ & Hf & _);
        destruct (create_notification s0 u t m ty); exact Hf
    end. }
  unfold comments_of. rewrite Hc, filter_app. cbn [filter c_post_id]. split.
  - rewrite Z.eqb_refl. reflexivity.
  - intros q Hq. rewrite filter_app. cbn [filter c_post_id].
    destruct (Z.eqb_spec pid q); [congruence|]. apply app_nil_r.
Qed.

Lemma add_comment_appends_witness :
  find_post off_post_state 1 = Some (mkPost 1 1 "hi" 0 0)
  /\ comments_of (snd (add_comment off_post_state bob 1 "nice")) 1
     = (comments_of off_post_state 1 ++ [mkComment 2 2 1 "nice"])%list
  /\ (forall q, q <> 1 ->
        comments_of (snd (add_comment off_post_state bob 1 "nice")) q = comments_of off_post_state q).
Proof.
  assert (H : find_post off_post_state 1 = Some (mkPost 1 1 "hi" 0 0)) by (vm_compute; reflexivity).
  split; [exact H|]. exact (add_comment_appends off_post_state bob 1 "nice" _ H).
Defined.

(** ** Fasting sessions *)

Lemma create_notification_fasting (s : State) (uid : Z) (ti m ty : string) :
  fasting_sessions (res_state (create_notification s uid ti m ty)) = fasting_sessions s.
Proof. apply (create_notification_cn_frame s uid ti m ty). Qed.

Lemma find_none_filter (A : Type) (f : A -> bool) (l : list A) :
  find f l = None -> filter f l = [].
Proof.
  induction l as [|a l IH]; intros H; [reflexivity|].
  cbn in *. destruct (f a); [discriminate H|]. apply IH. exact H.
Qed.

Lemma start_fasting_appends (s : State) (cu : User) (tg now : Z) :
  active_session s (u_id cu) = None ->
  fasting_sessions (snd (start_fasting s cu tg now))
  = (fasting_sessions s ++ [mkFastingSession (next_id s) (u_id cu) now None tg false])%list.
Proof.
  unfold start_fasting, active_session. intros E. rewrite E.
  unfold fresh_id. cbv beta iota zeta.
  match goal with
  | |- context [create_notification ?s0 ?u ?t ?m ?ty] =>
      pose proof (create_notification_fasting s0 u t m ty) as Hf;
      destruct (create_notification s0 u t m ty); exact Hf
  end.
Qed.

Lemma end_fasting_owner_sessions (s : State) (cu : User) (sid now : Z) (f : FastingSession) :
  find (fun g => Z.eqb (fs_id g) sid) (fasting_sessions s) = Some f ->
  fs_user_id f = u_id cu ->
  fasting_sessions (snd (end_fasting s cu sid now))
    = map (complete_row (fs_id f) now) (fasting_sessions s).
Proof.
  intros Hf Hu. unfold end_fasting. rewrite Hf, Hu, Z.eqb_refl. cbv beta iota zeta.
  match goal with
  | |- context [create_notification ?s0 ?u ?t ?m ?ty] =>
      pose proof (create_notification_fasting s0 u t m ty) as Hn;
      destruct (create_notification s0 u t m ty); exact Hn
  end.
Qed.


(** Ending one's own running fast, when it is the caller's only running
    fast, leaves no active session, so a new fast can be started right after
    and is appended as the caller's new active session. *)
Theorem end_fasting_allows_restart (s : State) (cu : User) (sid now : Z)
    (f : FastingSession) (tg now2 : Z) :
  find (fun g => Z.eqb (fs_id g) sid) (fasting_sessions s) = Some f ->
  fs_user_id f = u_id cu ->
  (forall g, In g (fasting_sessions s) -> fs_user_id g = u_id cu ->
     completed g = false -> g = f) ->
  active_session (snd (end_fasting s cu sid now)) (u_id cu) = None
  /\ fasting_sessions (snd (start_fasting (snd (end_fasting s cu sid now)) cu tg now2))
     = (fasting_sessions (snd (end_fasting s cu sid now))
        ++ [mkFastingSession (next_id (snd (end_fasting s cu sid now))) (u_id cu) now2 None tg false])%list.
Proof.
  intros Hf Hu Honly.
  assert (Hnone : active_session (snd (end_fasting s cu sid now)) (u_id cu) = None).
  { unfold active_session. rewrite (end_fasting_owner_sessions s cu sid now f Hf Hu).
    apply find_none_intro. intros g' Hg'. apply in_map_iff in Hg' as (g & <- & Hg).
    unfold complete_row. destruct (Z.eqb_spec (fs_id g) (fs_id f)) as [Eid|Nid].
    - cbn. apply andb_false_r.
    - destruct (Z.eqb (fs_user_id g) (u_id cu)) eqn:Eu; [|reflexivity].
      destruct (completed g) eqn:Ec; [reflexivity|].
      apply Z.eqb_eq in Eu. rewrite (Honly g Hg Eu Ec) in Nid. contradiction. }
  split; [exact Hnone|].
  exact (start_fasting_appends _ cu tg now2 Hnone).
Qed.

Lemma end_fasting_allows_restart_witness :
  find (fun g => Z.eqb (fs_id g) 1) (fasting_sessions off_fast_state)
     = Some (mkFastingSession 1 1 0 None 16 false)
  /\ fs_user_id (mkFastingSession 1 1 0 None 16 false) = u_id user_a
  /\ (forall g, In g (fasting_sessions off_fast_state) -> fs_user_id g = u_id user_a ->
       completed g = false -> g = mkFastingSession 1 1 0 None 16 false)
  /\ active_session (snd (end_fasting off_fast_state user_a 1 57600)) (u_id user_a) = None
  /\ fasting_sessions (snd (start_fasting (snd (end_fasting off_fast_state user_a 1 57600)) user_a 16 60000))
     = (fasting_sessions (snd (end_fasting off_fast_state user_a 1 57600))
        ++ [mkFastingSession (next_id (snd (end_fasting off_fast_state user_a 1 57600)))
              (u_id user_a) 60000 None 16 false])%list.
Proof.
  assert (Hf : find (fun g => Z.eqb (fs_id g) 1) (fasting_sessions off_fast_state)
               = Some (mkFastingSession 1 1 0 None 16 false)) by (vm_compute; reflexivity).
  assert (Hu : fs_user_id (mkFastingSession 1 1 0 None 16 false) = u_id user_a) by reflexivity.
  assert (Ho : forall g, In g (fasting_sessions off_fast_state) -> fs_user_id g = u_id user_a ->
       completed g = false -> g = mkFastingSession 1 1 0 None 16 false).
  { intros g Hg. vm_compute in Hg. destruct Hg as [<-|[]]. reflexivity. }
  split; [exact Hf|]. split; [exact Hu|]. split; [exact Ho|].
  exact (end_fasting_allows_restart off_fast_state user_a 1 57600 _ 16 60000 Hf Hu Ho).
Defined.



(** ** [allowed_file] *)

Lemma lower_char_dot (c : ascii) : Ascii.eqb (lower_char c) "."%char = Ascii.eqb c "."%char.
Proof. destruct c as [[] [] [] [] [] [] [] []]; reflexivity. Qed.

Lemma lower_char_idem (c : ascii) : lower_char (lower_char c) = lower_char c.
Proof. destruct c as [[] [] [] [] [] [] [] []]; reflexivity. Qed.

Lemma lower_idem (f : string) : lower (lower f) = lower f.
Proof. induction f as [|c f IH]; cbn; [reflexivity|]. rewrite lower_char_idem, IH. reflexivity. Qed.

Lemma has_dot_lower (f : string) : has_dot (lower f) = has_dot f.
Proof. induction f as [|c f IH]; cbn; [reflexivity|]. rewrite lower_char_dot, IH. reflexivity. Qed.

Lemma after_last_dot_lower (f : string) :
  after_last_dot (lower f) = option_map lower (after_last_dot f).
Proof.
  induction f as [|c f IH]; cbn; [reflexivity|]. rewrite IH.
  destruct (after_last_dot f); cbn; [reflexivity|].
  rewrite lower_char_dot. destruct (Ascii.eqb c "."%char); reflexivity.
Qed.

(** The extension test ignores case: lower-casing the whole file name does
    not change the answer. *)
Theorem allowed_file_case_insensitive (filename : string) :
  allowed_file (lower filename) = allowed_file filename.
Proof.
  unfold allowed_file. rewrite has_dot_lower, after_last_dot_lower.
  destruct (after_last_dot filename); cbn; [rewrite lower_idem|]; reflexivity.
Qed.

Lemma after_last_dot_none (r : string) : after_last_dot r = None <-> has_dot r = false.
Proof.
  induction r as [|c r IH]; cbn; [tauto|].
  destruct (after_last_dot r) eqn:E.
  - split; [discriminate|]. intros H. apply orb_false_iff in H as [_ H].
    apply IH in H. discriminate H.
  - destruct (Ascii.eqb c "."%char); cbn; [split; discriminate|]. tauto.
Qed.

Lemma after_last_dot_some (f e : string) :
  after_last_dot f = Some e -> exists base, f = (base ++ String "."%char e)%string /\ has_dot e = false.
Proof.
  revert e. induction f as [|c f IH]; intros e H; cbn in H; [discriminate H|].
  destruct (after_last_dot f) as [e'|] eqn:E.
  - injection H as <-. destruct (IH e' eq_refl) as (base & -> & Hd).
    exists (String c base). split; [reflexivity | exact Hd].
  - destruct (Ascii.eqb_spec c "."%char) as [->|]; [|discriminate H].
    injection H as <-. exists EmptyString. split; [reflexivity|].
    apply after_last_dot_none. exact E.
Qed.

Lemma after_last_dot_app (base e : string) :
  has_dot e = false -> after_last_dot (base ++ String "."%char e)%string = Some e.
Proof.
  intros He. induction base as [|c base IH]; cbn.
  - apply after_last_dot_none in He. rewrite He. reflexivity.
  - rewrite IH. reflexivity.
Qed.

Lemma has_dot_app (a b : string) : has_dot (a ++ b)%string = has_dot a || has_dot b.
Proof. induction a as [|c a IH]; cbn; [reflexivity|]. rewrite IH. apply orb_assoc. Qed.

(** A file name is accepted exactly when it is some text, a dot, and a
    dot-free extension whose lower-case form is one of png, jpg, jpeg, gif
    and webp: only the text after the last dot counts. *)
Theorem allowed_file_iff (filename : string) :
  allowed_file filename = true
  <-> exists base ext, filename = (base ++ "." ++ ext)%string /\ has_dot ext = false
                       /\ In (lower ext) allowed_extensions.
Proof.
  unfold allowed_file. split.
  - intros H. apply andb_prop in H as [_ H].
    destruct (after_last_dot filename) as [ext|] eqn:E; [|discriminate H].
    destruct (after_last_dot_some _ _ E) as (base & -> & Hd).
    exists base, ext. split; [reflexivity|]. split; [exact Hd|].
    apply existsb_exists in H as (x & Hx & Heq). apply String.eqb_eq in Heq. subst x. exact Hx.
  - intros (base & ext & -> & Hd & Hin). cbn [append].
    rewrite has_dot_app, after_last_dot_app by exact Hd. cbn [has_dot Ascii.eqb].
    rewrite orb_true_r. cbn [andb]. apply existsb_exists. exists (lower ext).
    split; [exact Hin | apply String.eqb_refl].
Qed.

(** ** Grocery list: [generate_grocery_list] and the /api/grocery routes *)

Lemma filter_filter_and (A : Type) (f g : A -> bool) (l : list A) :
  filter g (filter f l) = filter (fun x => f x && g x) l.
Proof.
  induction l as [|x l IH]; cbn; [reflexivity|].
  destruct (f x); cbn; [destruct (g x)|]; rewrite ?IH; reflexivity.
Qed.

Lemma filter_nil_in (A : Type) (f : A -> bool) (l : list A) :
  (forall x, In x l -> f x = false) -> filter f l = [].
Proof.
  intros H. rewrite (filter_ext_in f (fun _ => false)) by exact H. apply filter_false.
Qed.

Lemma filter_map_fixed (A : Type) (f : A -> bool) (g : A -> A) (l : list A) :
  (forall x, In x l -> f (g x) = f x) -> (forall x, In x l -> f x = true -> g x = x) ->
  filter f (map g l) = filter f l.
Proof.
  induction l as [|x l IH]; intros H1 H2; cbn; [reflexivity|].
  rewrite (H1 x (or_introl eq_refl)).
  destruct (f x) eqn:E.
  - rewrite (H2 x (or_introl eq_refl) E). f_equal.
    apply IH; intros y Hy; [apply H1 | apply H2]; right; exact Hy.
  - apply IH; intros y Hy; [apply H1 | apply H2]; right; exact Hy.
Qed.

Lemma find_map_fixed (A : Type) (f : A -> bool) (g : A -> A) (l : list A) :
  (forall x, f (g x) = f x) -> find f (map g l) = option_map g (find f l).
Proof.
  intros H. induction l as [|x l IH]; cbn; [reflexivity|].
  rewrite H. destruct (f x); [reflexivity | exact IH].
Qed.

Lemma add_items_spec (user_id : Z) (items : list (string * string * string)) (gs : GState) :
  exists L, grocery_items (add_items user_id items gs) = (grocery_items gs ++ L)%list
  /\ map (fun i => (g_name i, g_quantity i, g_category i)) L = items
  /\ (forall i, In i L -> g_user_id i = user_id /\ g_purchased i = false).
Proof.
  revert gs. induction items as [|[[n q] c] items IH]; intros gs; cbn.
  - exists []. split; [symmetry; apply app_nil_r|]. split; [reflexivity | intros i []].
  - match goal with
    | |- context [grocery_items (add_items user_id items ?g)] =>
        destruct (IH g) as (L & EL & HL & HF); rewrite EL; cbn [grocery_items]
    end.
    eexists (_ :: L). rewrite <- app_assoc. split; [reflexivity|].
    split; [cbn; rewrite HL; reflexivity|].
    intros i [<-|Hi]; [split; reflexivity | exact (HF i Hi)].
Qed.

Lemma generate_grocery_items (gs : GState) (user_id week_start_date : Z) :
  grocery_items (snd (generate_grocery_list gs user_id week_start_date))
  = grocery_items (add_items user_id common_items
      (mkGState (app gs)
         (filter (fun i => negb (Z.eqb i.(g_user_id) user_id && negb i.(g_purchased)))
                 (grocery_items gs)))).
Proof.
  unfold generate_grocery_list. cbv beta zeta.
  match goal with |- context [add_items ?u ?c ?g] => generalize (add_items u c g); intros g2 end.
  destruct (create_notification (app g2) _ _ _ _); reflexivity.
Qed.

(** After the meal-plan grocery list is generated for a user, that user's
    unpurchased items are exactly the 15 common items (as a multiset, also
    when the notification fails); the purchased items and every other
    user's items are left as they were. *)
Theorem generate_grocery_list_replaces_unpurchased (gs : GState) (cu : User) (week_start_date : Z) :
  Permutation
    (map (fun i => (g_name i, g_quantity i, g_category i))
       (grocery_get (snd (generate_grocery_list gs (u_id cu) week_start_date)) cu false))
    common_items
  /\ grocery_get (snd (generate_grocery_list gs (u_id cu) week_start_date)) cu true
     = grocery_get gs cu true
  /\ (forall v b, u_id v <> u_id cu ->
        grocery_get (snd (generate_grocery_list gs (u_id cu) week_start_date)) v b
        = grocery_get gs v b).
Proof.
  destruct (add_items_spec (u_id cu) common_items
              (mkGState (app gs)
                 (filter (fun i => negb (Z.eqb i.(g_user_id) (u_id cu) && negb i.(g_purchased)))
                         (grocery_items gs)))) as (L & EL & HL & HF).
  unfold grocery_get. rewrite generate_grocery_items, EL. cbn [grocery_items].
  rewrite !filter_app, !filter_filter_and. split; [|split].
  - rewrite (filter_nil_in _ _ (grocery_items gs)).
    + rewrite (forallb_filter_id _ L).
      * cbn [List.app]. rewrite map_rev, HL. apply Permutation_sym, Permutation_rev.
      * apply forallb_forall. intros i Hi. destruct (HF i Hi) as [-> ->].
        rewrite Z.eqb_refl. reflexivity.
    + intros i _. destruct (Z.eqb (g_user_id i) (u_id cu)), (g_purchased i); reflexivity.
  - rewrite (filter_nil_in _ _ L).
    + rewrite app_nil_r. f_equal. apply filter_ext. intros i.
      destruct (Z.eqb (g_user_id i) (u_id cu)), (g_purchased i); reflexivity.
    + intros i Hi. destruct (HF i Hi) as [_ ->]. apply andb_false_r.
  - intros v b Hv. rewrite filter_app, filter_filter_and, (filter_nil_in _ _ L).
    + rewrite app_nil_r. f_equal. apply filter_ext_in. intros i _.
      destruct (Z.eqb_spec (g_user_id i) (u_id v)) as [E|E]; cbn; [|apply andb_false_r].
      rewrite E. rewrite (proj2 (Z.eqb_neq (u_id v) (u_id cu)) Hv). reflexivity.
    + intros i Hi. destruct (HF i Hi) as [-> _].
      rewrite (proj2 (Z.eqb_neq (u_id cu) (u_id v))) by congruence. reflexivity.
Qed.

(** Editing an item changes it in place: the caller's own item [item_id]
    is found again with the fields that were sent and the others kept. *)
Theorem grocery_put_updates (gs : GState) (cu : User) (item_id : Z) (item : GroceryItem)
    (purchased : option bool) (name quantity category : option string) :
  find_item gs item_id = Some item -> g_user_id item = u_id cu ->
  find_item (snd (grocery_put gs cu item_id purchased name quantity category)) item_id
  = Some (mkGroceryItem item_id (u_id cu)
            (match name with Some v => v | None => g_name item end)
            (match quantity with Some v => v | None => g_quantity item end)
            (match category with Some v => v | None => g_category item end)
            (match purchased with Some b => b | None => g_purchased item end)).
Proof.
  intros Hf Hu. unfold grocery_put. rewrite Hf, Hu, Z.eqb_refl. cbn [negb snd].
  unfold find_item in *. cbn [grocery_items].
  pose proof (find_some _ _ Hf) as [_ Hid]. apply Z.eqb_eq in Hid.
  rewrite find_map_fixed, Hf.
  - cbn. rewrite Z.eqb_refl. cbn. rewrite Hid, Hu. reflexivity.
  - intros i. destruct (Z.eqb (g_id i) (g_id item)); reflexivity.
Qed.

Lemma grocery_get_put_delete_frame (gs : GState) (cu v : User) (item_id : Z)
    (item : GroceryItem) (x : GroceryItem) :
  NoDup (map g_id (grocery_items gs)) -> find_item gs item_id = Some item ->
  g_user_id item = u_id cu -> u_id v <> u_id cu -> In x (grocery_items gs) ->
  g_id x = g_id item -> x = item /\ Z.eqb (g_user_id x) (u_id v) = false.
Proof.
  intros Hnd Hf Hu Hv Hx Hid. apply find_some in Hf as [Hin _].
  assert (x = item) as -> by exact (NoDup_map_inj _ _ g_id _ _ _ Hnd Hx Hin Hid).
  split; [reflexivity|]. rewrite Hu. apply Z.eqb_neq. congruence.
Qed.

(** Editing or deleting a grocery item never changes the listing of any
    other user, whatever item id is sent (ids being distinct). *)
Theorem grocery_edits_only_own (gs : GState) (cu : User) (item_id : Z)
    (purchased : option bool) (name quantity category : option string) (v : User) (b : bool) :
  NoDup (map g_id (grocery_items gs)) -> u_id v <> u_id cu ->
  grocery_get (snd (grocery_put gs cu item_id purchased name quantity category)) v b
    = grocery_get gs v b
  /\ grocery_get (snd (grocery_delete gs cu item_id)) v b = grocery_get gs v b.
Proof.
  intros Hnd Hv. unfold grocery_put, grocery_delete.
  destruct (find_item gs item_id) as [item|] eqn:Ef; [|split; reflexivity].
  destruct (Z.eqb_spec (g_user_id item) (u_id cu)) as [Hu|Hu]; cbn [negb snd];
    [|split; reflexivity].
  unfold grocery_get. cbn [grocery_items]. split.
  - f_equal. apply filter_map_fixed.
    + intros x Hx. destruct (Z.eqb_spec (g_id x) (g_id item)) as [E|E]; [|reflexivity].
      destruct (grocery_get_put_delete_frame gs cu v item_id item x Hnd Ef Hu Hv Hx E) as [-> Hn].
      cbn. rewrite Hn. reflexivity.
    + intros x Hx Hp. destruct (Z.eqb_spec (g_id x) (g_id item)) as [E|E]; [|reflexivity].
      destruct (grocery_get_put_delete_frame gs cu v item_id item x Hnd Ef Hu Hv Hx E) as [_ Hn].
      rewrite Hn in Hp. discriminate Hp.
  - f_equal. rewrite filter_filter_and. apply filter_ext_in. intros x Hx.
    destruct (Z.eqb_spec (g_id x) (g_id item)) as [E|E]; cbn [negb andb]; [|reflexivity].
    destruct (grocery_get_put_delete_frame gs cu v item_id item x Hnd Ef Hu Hv Hx E) as [_ Hn].
    rewrite Hn. reflexivity.
Qed.

Lemma grocery_edits_only_own_witness :
  NoDup (map g_id (grocery_items sample_groceries)) /\ u_id bob <> u_id user_a
  /\ grocery_get (snd (grocery_put sample_groceries user_a 2 (Some true) None None None)) bob false
     = grocery_get sample_groceries bob false
  /\ grocery_get (snd (grocery_delete sample_groceries user_a 2)) bob false
     = grocery_get sample_groceries bob false.
Proof.
  assert (Hnd : NoDup (map g_id (grocery_items sample_groceries))).
  { cbn. constructor; [cbn; intros [H|[]]; discriminate H|].
    constructor; [intros []|constructor]. }
  assert (Hv : u_id bob <> u_id user_a) by (cbn; lia).
  split; [exact Hnd|]. split; [exact Hv|].
  exact (grocery_edits_only_own sample_groceries user_a 2 (Some true) None None None bob false Hnd Hv).
Defined.

Lemma grocery_put_updates_witness :
  find_item sample_groceries 1 = Some (mkGroceryItem 1 1 "Oats" "500g" "Grains" false)
  /\ g_user_id (mkGroceryItem 1 1 "Oats" "500g" "Grains" false) = u_id user_a
  /\ find_item (snd (grocery_put sample_groceries user_a 1 (Some true) None (Some "1kg") None)) 1
     = Some (mkGroceryItem 1 (u_id user_a) "Oats" "1kg" "Grains" true).
Proof.
  assert (Hf : find_item sample_groceries 1 = Some (mkGroceryItem 1 1 "Oats" "500g" "Grains" false))
    by reflexivity.
  assert (Hu : g_user_id (mkGroceryItem 1 1 "Oats" "500g" "Grains" false) = u_id user_a)
    by reflexivity.
  split; [exact Hf|]. split; [exact Hu|].
  exact (grocery_put_updates sample_groceries user_a 1 _ (Some true) None (Some "1kg") None Hf Hu).
Defined.

Lemma find_filter_keep (A : Type) (f g : A -> bool) (l : list A) :
  (forall x, f x = true -> g x = true) -> find f (filter g l) = find f l.
Proof.
  intros H. induction l as [|x l IH]; cbn; [reflexivity|].
  destruct (f x) eqn:Ef.
  - rewrite (H x Ef). cbn. rewrite Ef. reflexivity.
  - destruct (g x); cbn; [rewrite Ef|]; exact IH.
Qed.

(** The owner's delete removes the item: it is not found any more, and
    every other item id is found as before. *)
Theorem grocery_delete_removes (gs : GState) (cu : User) (item_id : Z) (item : GroceryItem) :
  find_item gs item_id = Some item -> g_user_id item = u_id cu ->
  find_item (snd (grocery_delete gs cu item_id)) item_id = None
  /\ (forall j, j <> item_id ->
        find_item (snd (grocery_delete gs cu item_id)) j = find_item gs j).
Proof.
  intros Hf Hu. pose proof (find_some _ _ Hf) as [_ Hid]. apply Z.eqb_eq in Hid.
  unfold grocery_delete. rewrite Hf, Hu, Z.eqb_refl. cbn [negb snd].
  unfold find_item. cbn [grocery_items]. split.
  - apply find_none_intro. intros x Hx. apply filter_In in Hx as [_ Hx].
    rewrite Hid in Hx. destruct (Z.eqb (g_id x) item_id); [discriminate Hx | reflexivity].
  - intros j Hj. apply find_filter_keep. intros x Hx. apply Z.eqb_eq in Hx.
    rewrite Hid, Hx. apply negb_true_iff, Z.eqb_neq. exact Hj.
Qed.

Lemma grocery_delete_removes_witness :
  find_item sample_groceries 2 = Some (mkGroceryItem 2 2 "Eggs" "12 pieces" "Protein" false)
  /\ g_user_id (mkGroceryItem 2 2 "Eggs" "12 pieces" "Protein" false) = u_id bob
  /\ find_item (snd (grocery_delete sample_groceries bob 2)) 2 = None
  /\ (forall j, j <> 2 ->
        find_item (snd (grocery_delete sample_groceries bob 2)) j = find_item sample_groceries j).
Proof.
  assert (Hf : find_item sample_groceries 2
               = Some (mkGroceryItem 2 2 "Eggs" "12 pieces" "Protein" false)) by reflexivity.
  assert (Hu : g_user_id (mkGroceryItem 2 2 "Eggs" "12 pieces" "Protein" false) = u_id bob)
    by reflexivity.
  split; [exact Hf|]. split; [exact Hu|].
  exact (grocery_delete_removes sample_groceries bob 2 _ Hf Hu).
Defined.

(** ** The hourly reminder evaluator *)

(** At an hour with no reminder (odd hours outside 13, 17 and 19, and even
    hours outside 8-20 other than 22) a run changes nothing. *)
Theorem quiet_hours_no_reminders (current_hour : Z) (s : State) :
  ~ (8 <= current_hour <= 20 /\ current_hour mod 2 = 0) ->
  current_hour <> 13 -> current_hour <> 17 -> current_hour <> 19 -> current_hour <> 22 ->
  check_and_send_notifications current_hour s = Ok s.
Proof.
  intros Hw H13 H17 H19 H22. unfold check_and_send_notifications.
  generalize (filter notifications_enabled (users s)) as us.
  intros us. induction us as [|u us IH]; [reflexivity|]. cbn [remind_all].
  assert (Hwater : Z.leb 8 current_hour && Z.leb current_hour 20
                   && Z.eqb (current_hour mod 2) 0 = false).
  { destruct (Z.leb_spec 8 current_hour), (Z.leb_spec current_hour 20),
      (Z.eqb_spec (current_hour mod 2) 0); cbn; try reflexivity. exfalso; apply Hw; lia. }
  assert (H8 : Z.eqb current_hour 8 = false).
  { apply Z.eqb_neq. intros ->. apply Hw. split; [lia | reflexivity]. }
  unfold remind_user.
  rewrite H8, (proj2 (Z.eqb_neq _ _) H13), (proj2 (Z.eqb_neq _ _) H17),
    (proj2 (Z.eqb_neq _ _) H19), (proj2 (Z.eqb_neq _ _) H22).
  destruct (water_reminder u), (meal_reminder u), (workout_reminder u), (sleep_reminder u);
    cbn [andb]; rewrite ?Hwater; cbn [bind]; exact IH.
Qed.

Lemma quiet_hours_no_reminders_witness :
  ~ (8 <= 3 <= 20 /\ 3 mod 2 = 0) /\ 3 <> 13 /\ 3 <> 17 /\ 3 <> 19 /\ 3 <> 22
  /\ check_and_send_notifications 3 off_state = Ok off_state.
Proof.
  assert (Hw : ~ (8 <= 3 <= 20 /\ 3 mod 2 = 0)) by lia.
  assert (H13 : 3 <> 13) by lia. assert (H17 : 3 <> 17) by lia.
  assert (H19 : 3 <> 19) by lia. assert (H22 : 3 <> 22) by lia.
  repeat (split; [assumption|]).
  exact (quiet_hours_no_reminders 3 off_state Hw H13 H17 H19 H22).
Defined.

(** A run of the evaluator touches no table but the notifications, and
    keeps the rows that were there, appending its reminders after them
    (also when a write fails midway). *)
Theorem reminder_run_only_appends_notifications (current_hour : Z) (s : State) :
  cn_frame s (res_state (check_and_send_notifications current_hour s)).
Proof. apply remind_all_cn_frame. Qed.


(** ** Requests run one at a time, and overlapping requests *)

(** While requests run one at a time, every post's [likes_count] and
    [comments_count] equal its like and comment rows, and every request or
    event keeps them so. *)
Theorem serial_runs_keep_counters (s : State) :
  reachable s ->
  counters_ok (posts s) (post_likes s) (comments s)
  /\ (forall s', step s s' -> counters_ok (posts s') (post_likes s') (comments s')).
Proof.
  intros Hr. split.
  - destruct (reachable_inv s Hr) as (_ & _ & _ & _ & _ & Hc). exact Hc.
  - intros s' Hs. destruct (step_inv s s' (reachable_inv s Hr) Hs) as (_ & _ & _ & _ & _ & Hc).
    exact Hc.
Qed.

Lemma serial_runs_keep_counters_witness :
  reachable liked_state
  /\ counters_ok (posts liked_state) (post_likes liked_state) (comments liked_state)
  /\ (forall s', step liked_state s' -> counters_ok (posts s') (post_likes s') (comments s')).
Proof.
  assert (Hr : reachable liked_state).
  { unfold liked_state. eapply reach_step; [|apply st_like].
    unfold post_state. eapply reach_step; [apply reach_init | apply st_create_post]. }
  split; [exact Hr|]. exact (serial_runs_keep_counters liked_state Hr).
Defined.




Lemma fast_commit_appends (s : State) (cu : User) (tg now : Z) :
  fasting_sessions (snd (fast_commit s cu tg now None))
  = (fasting_sessions s ++ [mkFastingSession (next_id s) (u_id cu) now None tg false])%list.
Proof.
  unfold fast_commit, fresh_id. cbv beta iota zeta.
  match goal with
  | |- context [create_notification ?s0 ?u ?t ?m ?ty] =>
      pose proof (create_notification_fasting s0 u t m ty) as Hf;
      destruct (create_notification s0 u t m ty); exact Hf
  end.
Qed.

(** Two fast starts of one user with no running fast that overlap both pass
    the active-session check: the user ends with two running fasts. *)
Theorem overlapping_fast_starts (s : State) (cu : User) (t1 n1 t2 n2 : Z) :
  active_session s (u_id cu) = None ->
  List.length (active_rows (overlap s (ReqStartFast cu t1 n1) (ReqStartFast cu t2 n2))
                 (u_id cu)) = 2%nat.
Proof.
  intros Hn. unfold overlap, active_rows. cbn [request_reads]. rewrite Hn, !fast_commit_appends.
  rewrite !filter_app.
  unfold active_session in Hn. rewrite (find_none_filter _ _ _ Hn).
  cbn. rewrite Z.eqb_refl. reflexivity.
Qed.

Lemma overlapping_fast_starts_witness :
  active_session off_state (u_id user_a) = None
  /\ List.length (active_rows (overlap off_state (ReqStartFast user_a 16 0)
                                (ReqStartFast user_a 12 60)) (u_id user_a)) = 2%nat.
Proof.
  assert (Hn : active_session off_state (u_id user_a) = None) by reflexivity.
  split; [exact Hn|]. exact (overlapping_fast_starts off_state user_a 16 0 12 60 Hn).
Defined.

Lemma comment_commit_writes (s : State) (cu : User) (pid : Z) (c : string) (post : Post) :
  comments (snd (comment_commit s cu pid c (Some post)))
  = (comments s ++ [mkComment (next_id s) (u_id cu) pid c])%list
  /\ posts (snd (comment_commit s cu pid c (Some post)))
     = map (post_upd pid (set_comments_count (comments_count post + 1))) (posts s).
Proof.
  unfold comment_commit, fresh_id. cbv beta iota zeta.
  destruct (negb (Z.eqb (p_user_id post) (u_id cu))); [|split; reflexivity].
  match goal with
  | |- context [create_notification ?s0 ?u ?t ?m ?ty] =>
      pose proof (create_notification_cn_frame s0 u t m ty) as Hf;
      destruct (create_notification s0 u t m ty)
  end;
  destruct Hf as (_ & Hp & _ & Hc & _); cbn in Hp, Hc |- *; rewrite Hp, Hc; split; reflexivity.
Qed.

(** Two comments on one post that overlap both land, but the post's
    [comments_count] goes up by one only: both requests write the value
    they loaded plus one. *)
Theorem overlapping_comments (s : State) (cu1 cu2 : User) (pid : Z) (c1 c2 : string)
    (p : Post) :
  find_post s pid = Some p ->
  comment_rows (comments (overlap s (ReqComment cu1 pid c1) (ReqComment cu2 pid c2))) pid
  = (comment_rows (comments s) pid + 2)%nat
  /\ find_post (overlap s (ReqComment cu1 pid c1) (ReqComment cu2 pid c2)) pid
     = Some (set_comments_count (comments_count p + 1) p).
Proof.
  intros Ep. unfold overlap. cbn [request_reads]. rewrite Ep.
  destruct (comment_commit_writes s cu1 pid c1 p) as [C1 P1].
  destruct (comment_commit_writes (snd (comment_commit s cu1 pid c1 (Some p))) cu2 pid c2 p)
    as [C2 P2].
  split.
  - rewrite C2, C1, comment_rows_snoc, comment_rows_snoc. cbn. rewrite Z.eqb_refl. lia.
  - unfold find_post. rewrite P2, P1, !find_map_post_upd by reflexivity.
    unfold find_post in Ep. rewrite Ep. cbn.
    apply find_some in Ep as [_ Hid]. unfold post_upd. rewrite Hid. cbn. rewrite Hid.
    destruct p. reflexivity.
Qed.

Lemma overlapping_comments_witness :
  find_post post_state 1 = Some (mkPost 1 1 "hi" 0 0)
  /\ comment_rows (comments (overlap post_state (ReqComment bob 1 "nice")
                               (ReqComment alice 1 "thanks"))) 1
     = (comment_rows (comments post_state) 1 + 2)%nat
  /\ find_post (overlap post_state (ReqComment bob 1 "nice") (ReqComment alice 1 "thanks")) 1
     = Some (set_comments_count (comments_count (mkPost 1 1 "hi" 0 0) + 1) (mkPost 1 1 "hi" 0 0)).
Proof.
  assert (Ep : find_post post_state 1 = Some (mkPost 1 1 "hi" 0 0)) by (vm_compute; reflexivity).
  split; [exact Ep|].
  exact (overlapping_comments post_state bob alice 1 "nice" "thanks" _ Ep).
Defined.

(** ** GET /api/social/posts with SQLite's LIMIT and OFFSET *)

(** With a non-negative [limit] and [offset], a page answered with
    [has_more] false is the last one: the page after it is empty. *)
Theorem posts_sql_has_more_false_last (s : State) (cu : User) (user_id : option Z)
    (limit offset : Z) (es : list PostEntry) :
  0 <= limit -> 0 <= offset ->
  posts_get_sql s cu user_id limit offset = Some (es, false) ->
  posts_query_sql s cu user_id limit (offset + limit) = [].
Proof.
  intros Hl Ho. unfold posts_get_sql, posts_query_sql, sql_page.
  assert (Hlt : Z.ltb limit 0 = false) by (apply Z.ltb_ge; exact Hl).
  rewrite !Hlt.
  destruct (post_entries s (u_id cu) _) as [es'|]; [|discriminate].
  intros E. injection E as _ Hm. apply Z.eqb_neq in Hm.
  rewrite length_firstn in Hm.
  rewrite Z2Nat.inj_add by assumption. rewrite Nat.add_comm, <- skipn_skipn.
  set (rest := skipn (Z.to_nat offset) (posts_rows s cu user_id)) in *.
  assert (Hlen : (List.length rest < Z.to_nat limit)%nat).
  { destruct (Nat.lt_ge_cases (List.length rest) (Z.to_nat limit)) as [H|H]; [exact H|].
    exfalso. apply Hm. rewrite Nat.min_l by exact H. lia. }
  rewrite skipn_all2 by lia. destruct (Z.to_nat limit); reflexivity.
Qed.

Lemma posts_sql_has_more_false_last_witness :
  0 <= 5 /\ 0 <= 0
  /\ posts_get_sql post_state alice None 5 0
     = Some ([mkPostEntry 1 "hi" 0 0 1 "alice" false], false)
  /\ posts_query_sql post_state alice None 5 (0 + 5) = [].
Proof.
  assert (Hg : posts_get_sql post_state alice None 5 0
               = Some ([mkPostEntry 1 "hi" 0 0 1 "alice" false], false))
    by (vm_compute; reflexivity).
  split; [lia|]. split; [lia|]. split; [exact Hg|].
  exact (posts_sql_has_more_false_last post_state alice None 5 0 _
           ltac:(lia) ltac:(lia) Hg).
Defined.


